(** * Patent / person analytics back end: statistics and listing core

    A shallow embedding of the query layer of the application
    ([app/crud/patent.py], [app/crud/person.py]) together with the
    properties its specification states about it.

    Tables are lists of rows; a select is a list comprehension over
    those lists.  Python exceptions are values of a small error monad.

    SQL leaves open the order of rows that no ORDER BY tells apart.
    A store lists the rows of each table in the order in which the
    database produces them, which is no part of the state of the
    database, and the comprehensions keep that order.  The statements
    below claim of the order of a result only what holds in every such
    order, namely what ORDER BY fixes, and otherwise speak of results
    up to [Permutation]. *)

From Stdlib Require Import ZArith List String Ascii Bool Lia Permutation.
Import ListNotations.
Local Open Scope string_scope.
Local Open Scope list_scope.
Local Open Scope Z_scope.

Set Implicit Arguments.

(* ===================================================================== *)
(** * Part I: the model                                                   *)
(* ===================================================================== *)

(** ** Python primitives *)

Module Py.

(** The exceptions the modelled code can raise. *)
Inductive exn : Type :=
| ZeroDivisionError   (* [a / 0] *)
| AttributeError      (* attribute access on [None] *)
| DataError           (* an OFFSET or LIMIT that is negative or leaves 64 bits *)
| InvalidRequestError. (* a join on a statement that has no FROM clause *)

Inductive result (A : Type) : Type :=
| Ok (a : A)
| Raise (e : exn).

Arguments Ok {A} a.
Arguments Raise {A} e.

Definition bind {A B} (m : result A) (k : A -> result B) : result B :=
  match m with
  | Ok a => k a
  | Raise e => Raise e
  end.

Fixpoint mapM {A B} (f : A -> result B) (l : list A) : result (list B) :=
  match l with
  | [] => Ok []
  | x :: xs =>
      bind (f x) (fun y => bind (mapM f xs) (fun ys => Ok (y :: ys)))
  end.

(** [sum(...)] over integers. *)
Definition sum (l : list Z) : Z := fold_right Z.add 0 l.

(** [l[:n]] and [l[n:]] for a literal [n >= 0]. *)
Definition slice_to {A} (n : nat) (l : list A) : list A := firstn n l.
Definition slice_from {A} (n : nat) (l : list A) : list A := skipn n l.

(** [round(n / d)] for [d > 0]: the quotient rounded to the nearest
    integer, halves to the even neighbour.  Python computes [n / d] as
    a double first; the double and the exact quotient round alike as
    long as [n] stays below 2^52, far above any row count. *)
Definition round_half_even (n d : Z) : Z :=
  let q := n / d in
  let r := n mod d in
  if 2 * r <? d then q
  else if d <? 2 * r then q + 1
  else if Z.even q then q else q + 1.

(** [int(round(n / d))] with Python's true division. *)
Definition int_round_div (n d : Z) : result Z :=
  if d =? 0 then Raise ZeroDivisionError else Ok (round_half_even n d).

(** A number that is either the integer literal of a guarded branch
    or the float [round((count / total) * 100, 2)], kept symbolic:
    [total] is never zero in a value of the second form. *)
Inductive number : Type :=
| Int (z : Z)
| PctRound2 (count total : Z).

(** [round((count / total) * 100, 2)] *)
Definition pct_round2 (count total : Z) : result number :=
  if total =? 0 then Raise ZeroDivisionError else Ok (PctRound2 count total).

End Py.

Notation "x <- m ;; k" := (Py.bind m (fun x => k))
  (at level 61, m at next level, right associativity).

(** ** SQL primitives *)

Module Sql.

(** [count( * )] *)
Definition count {A} (rows : list A) : Z := Z.of_nat (List.length rows).

(** The largest value of a 64-bit integer parameter. *)
Definition int64_max : Z := 9223372036854775807.

Section Relational.
Variables A B K : Type.

(** [l JOIN r ON on] *)
Definition join (on : A -> B -> bool) (l : list A) (r : list B)
  : list (A * B) :=
  flat_map (fun a => map (pair a) (filter (on a) r)) l.

(** [l LEFT OUTER JOIN r ON on]: a left row without a partner is
    kept once, padded with NULL. *)
Definition outerjoin (on : A -> B -> bool) (l : list A) (r : list B)
  : list (A * option B) :=
  flat_map (fun a =>
              match filter (on a) r with
              | [] => [(a, None)]
              | ms => map (fun b => (a, Some b)) ms
              end) l.

Variable eqb : K -> K -> bool.

(** The distinct values of a column, in order of first occurrence. *)
Fixpoint distinct (l : list K) : list K :=
  match l with
  | [] => []
  | k :: ks => k :: filter (fun k' => negb (eqb k k')) (distinct ks)
  end.

(** [count(distinct(...))] *)
Definition count_distinct (l : list K) : Z :=
  Z.of_nat (List.length (distinct l)).

(** [SELECT key, count( * ) ... GROUP BY key] *)
Definition group_count (l : list K) : list (K * Z) :=
  map (fun k => (k, count (filter (eqb k) l))) (distinct l).

(** [SELECT row ... GROUP BY key] where the key determines the row:
    one representative per key.  The order of the groups is the
    database's; here it is the order of first occurrence. *)
Fixpoint group_by (key : A -> K) (l : list A) : list A :=
  match l with
  | [] => []
  | a :: l' =>
      a :: filter (fun b => negb (eqb (key a) (key b))) (group_by key l')
  end.

(** [ORDER BY flag DESC] on a boolean column: rows with the flag
    first.  The order among rows that compare equal is the
    database's; here they stay in the order they came. *)
Definition order_by_desc (flag : A -> bool) (l : list A) : list A :=
  filter flag l ++ filter (fun a => negb (flag a)) l.

(** [OFFSET skip LIMIT n]: both are sent as 64-bit integers, which a
    Python integer past [int64_max] does not fit, and the database
    rejects negative values. *)
Definition offset_limit (skip n : Z) (l : list A) : Py.result (list A) :=
  if (skip <? 0) || (n <? 0) || (int64_max <? skip) || (int64_max <? n)
  then Py.Raise Py.DataError
  else Py.Ok (firstn (Z.to_nat n) (skipn (Z.to_nat skip) l)).
End Relational.

(** [ORDER BY count DESC] on the rows of a grouped count; rows with
    equal counts stay in the order they came. *)
Fixpoint insert_desc {K} (x : K * Z) (l : list (K * Z)) : list (K * Z) :=
  match l with
  | [] => [x]
  | y :: l' => if snd y <=? snd x then x :: l else y :: insert_desc x l'
  end.

Definition order_by_count_desc {K} (l : list (K * Z)) : list (K * Z) :=
  fold_right insert_desc [] l.

(** Comparisons against a nullable column inside WHERE or CASE: NULL
    makes the comparison unknown, which selects nothing. *)
Definition eq_int (c : option Z) (v : Z) : bool :=
  match c with Some x => x =? v | None => false end.

Definition le_int (c : option Z) (v : Z) : bool :=
  match c with Some x => x <=? v | None => false end.

Definition eq_str (c : option string) (v : string) : bool :=
  match c with Some x => String.eqb x v | None => false end.

(** [col IN (v1, ..., vn)] *)
Definition in_str (c : option string) (vs : list string) : bool :=
  match c with Some x => existsb (String.eqb x) vs | None => false end.

(** Lower case of a UTF-8 encoded string, for the Latin and the
    Russian alphabet. *)
Fixpoint lower (s : string) : string :=
  match s with
  | EmptyString => EmptyString
  | String c s' =>
      let n := nat_of_ascii c in
      if ((65 <=? n) && (n <=? 90))%nat
      then String (ascii_of_nat (n + 32)) (lower s')
      else if (n =? 208)%nat then
        match s' with
        | EmptyString => String c EmptyString
        | String c2 s'' =>
            let m := nat_of_ascii c2 in
            if (m =? 129)%nat
            then String (ascii_of_nat 209) (String (ascii_of_nat 145) (lower s''))
            else if ((144 <=? m) && (m <=? 159))%nat
            then String c (String (ascii_of_nat (m + 32)) (lower s''))
            else if ((160 <=? m) && (m <=? 175))%nat
            then String (ascii_of_nat 209) (String (ascii_of_nat (m - 32)) (lower s''))
            else String c (String c2 (lower s''))
        end
      else String c (lower s')
  end.

Fixpoint contains (pat s : string) : bool :=
  if String.prefix pat s then true
  else match s with
       | EmptyString => false
       | String _ s' => contains pat s'
       end.

(** [col ILIKE '%pat%'] for a pattern without wildcards of its own. *)
Definition ilike_contains (c : option string) (pat : string) : bool :=
  match c with
  | Some x => contains (lower pat) (lower x)
  | None => false
  end.

End Sql.

(** ** Tables *)

Module Patent.
(** Modelled from the spec: the mapping of [Patent]
    (app/models/patent.py) is not among the sources.  A patent is
    identified by (kind, registration number); the columns below are
    the ones the queries name, with the nullability the schema
    [PatentBase] gives them.  [author_count] is the derived count of
    authors.  The remaining attributes (dates, raw owner and author
    strings, address, URL) are carried along unread. *)
Record t : Type := mk {
  kind : Z;
  reg_number : Z;
  name : string;
  actual : bool;
  country_code : option string;
  subcategory : option string;
  author_count : option Z
}.

Definition key (p : t) : Z * Z := (kind p, reg_number p).
End Patent.

Module Person.
(** The columns of [Person] (app/models/person.py) that the queries
    read; addresses, short name, registration date and the active flag
    are carried along unread. *)
Record t : Type := mk {
  kind : Z;
  tax_number : string;
  full_name : option string;
  category : option string;
  okopf : option string;
  okvad : option string;
  region : option string;
  ogrn : string;
  uk : Z;
  support_type : option string
}.
End Person.

Module Ownership.
(** Modelled from the spec: the mapping of [Ownership] is not among the
    sources.  It links one person to one patent by the patent's
    composite key and has no attribute beyond the references, which
    the queries name [patent_kind], [patent_reg_number] and
    [person_tax_number]. *)
Record t : Type := mk {
  patent_kind : Z;
  patent_reg_number : Z;
  person_tax_number : string
}.
End Ownership.

Module FilterTaxNumber.
(** Modelled from the spec: the mapping of [FilterTaxNumber]
    (app/models/filter.py) is not among the sources.  A row puts one
    tax number under one filter identifier. *)
Record t : Type := mk {
  filter_id : Z;
  tax_number : string
}.
End FilterTaxNumber.

(** The database the session reads. *)
Record Store : Type := mkStore {
  patent_table : list Patent.t;
  person_table : list Person.t;
  ownership_table : list Ownership.t;
  filter_table : list FilterTaxNumber.t
}.

Definition empty_store : Store := mkStore [] [] [] [].

Definition key_eqb (a b : Z * Z) : bool :=
  (fst a =? fst b) && (snd a =? snd b).

Definition opt_str_eqb (a b : option string) : bool :=
  match a, b with
  | Some x, Some y => String.eqb x y
  | None, None => true
  | _, _ => false
  end.

(** The join condition between a patent and an ownership row: the
    composite foreign key.  [get_patents_list] writes it out;
    [.join(Ownership)] without a condition takes it from the mapping. *)
Definition owns (p : Patent.t) (o : Ownership.t) : bool :=
  (Ownership.patent_kind o =? Patent.kind p)
  && (Ownership.patent_reg_number o =? Patent.reg_number p).

(** [Person.tax_number == Ownership.person_tax_number], with the
    ownership side possibly NULL after an outer join. *)
Definition owner_is (o : option Ownership.t) (q : Person.t) : bool :=
  match o with
  | Some o' => String.eqb (Person.tax_number q) (Ownership.person_tax_number o')
  | None => false
  end.

(** The loaded relationships [Patent.ownerships] and [Ownership.person]. *)
Definition Patent_ownerships (db : Store) (p : Patent.t) : list Ownership.t :=
  filter (owns p) (ownership_table db).

Definition Ownership_person (db : Store) (o : Ownership.t) : option Person.t :=
  find (fun q => String.eqb (Person.tax_number q) (Ownership.person_tax_number o))
       (person_table db).

(** ** Patent queries ([CRUDPatent], app/crud/patent.py) *)

Module CRUDPatent.

Record PatentHolder : Type := mkHolder {
  tax_number : string;
  full_name : option string
}.

(** [{**patent.__dict__, "patent_holders": patent_holders}] *)
Record PatentItem : Type := mkItem {
  patent : Patent.t;
  patent_holders : list PatentHolder
}.

Record PatentListResponse : Type := mkList {
  total : Z;
  items : list PatentItem
}.

Record PatentStatsResponse : Type := mkStats {
  total_patents : Z;
  total_ru_patents : Z;
  total_with_holders : Z;
  total_ru_with_holders : Z;
  with_holders_percent : Z;
  ru_with_holders_percent : Z;
  by_author_count : list (string * Z);
  by_patent_kind : list (Z * Z)
}.

(** The holder pairs of one patent, read through the loaded
    relationships; [ownership.person] is [None] for an ownership
    whose person row is missing. *)
Definition holder_of (db : Store) (o : Ownership.t) : Py.result PatentHolder :=
  match Ownership_person db o with
  | Some q => Py.Ok (mkHolder (Person.tax_number q) (Person.full_name q))
  | None => Py.Raise Py.AttributeError
  end.

Definition item_of (db : Store) (p : Patent.t) : Py.result PatentItem :=
  patent_holders <- Py.mapM (holder_of db) (Patent_ownerships db p) ;;
  Py.Ok (mkItem p patent_holders).

(** Patent LEFT JOIN Ownership LEFT JOIN Person, the FROM clause of
    both listings. *)
Definition listing_rows (db : Store)
  : list (Patent.t * option Ownership.t * option Person.t) :=
  Sql.outerjoin (fun po q => owner_is (snd po) q)
    (Sql.outerjoin owns (patent_table db) (ownership_table db))
    (person_table db).

Definition row_patent (r : Patent.t * option Ownership.t * option Person.t)
  : Patent.t := fst (fst r).

(** The optional [where] clauses of [get_patents_list]. *)
Definition kind_matches (kind : option Z) (p : Patent.t) : bool :=
  match kind with
  | Some k => Patent.kind p =? k
  | None => true
  end.

Definition actual_matches (actual : option bool) (p : Patent.t) : bool :=
  match actual with
  | Some a => Bool.eqb (Patent.actual p) a
  | None => true
  end.

Definition get_patents_list (db : Store) (page pagesize : Z)
           (kind : option Z) (actual : option bool)
  : Py.result PatentListResponse :=
  let skip := (page - 1) * pagesize in
  let selected :=
    filter (fun r => kind_matches kind (row_patent r)
                     && actual_matches actual (row_patent r))
           (listing_rows db) in
  let grouped := Sql.group_by key_eqb Patent.key (map row_patent selected) in
  let ordered := Sql.order_by_desc Patent.actual grouped in
  patents <- Sql.offset_limit skip pagesize ordered ;;
  patents_list <- Py.mapM (item_of db) patents ;;
  let total := Sql.count (patent_table db) in
  Py.Ok (mkList total patents_list).

(** [select(FilterTaxNumber.tax_number).where(filter_id == ...)] *)
Definition filter_tax_number_list (db : Store) (filter_id : Z) : list string :=
  map FilterTaxNumber.tax_number
      (filter (fun f => FilterTaxNumber.filter_id f =? filter_id)
              (filter_table db)).

Definition get_patents_list_with_filter (db : Store) (page pagesize : Z)
           (filter_id : Z)
  : Py.result PatentListResponse :=
  let skip := (page - 1) * pagesize in
  let tax_numbers := filter_tax_number_list db filter_id in
  let selected :=
    filter (fun r => Sql.in_str (option_map Person.tax_number (snd r)) tax_numbers)
           (listing_rows db) in
  let grouped := Sql.group_by key_eqb Patent.key (map row_patent selected) in
  patents <- Sql.offset_limit skip pagesize grouped ;;
  patents_list <- Py.mapM (item_of db) patents ;;
  let total :=
    Sql.count
      (filter (fun r => Sql.in_str
                          (option_map Ownership.person_tax_number (snd r))
                          tax_numbers)
              (Sql.outerjoin owns (patent_table db) (ownership_table db))) in
  Py.Ok (mkList total patents_list).

(** The endpoint [list_patents] (app/api/endpoints/patent.py): a
    filter id that is absent or zero selects the plain listing. *)
Definition list_patents (db : Store) (page pagesize : Z)
           (filter_id : option Z) (kind : option Z) (actual : option bool)
  : Py.result PatentListResponse :=
  match filter_id with
  | Some fid =>
      if fid =? 0 then get_patents_list db page pagesize kind actual
      else get_patents_list_with_filter db page pagesize fid
  | None => get_patents_list db page pagesize kind actual
  end.

(** *** Statistics *)

(** [... .join(Ownership).join(FilterTaxNumber, Ownership.person_tax_number
    == FilterTaxNumber.tax_number).filter_by(filter_id=filter_id)] *)
Definition narrowed (db : Store) (filter_id : Z)
  : list (Patent.t * Ownership.t * FilterTaxNumber.t) :=
  filter (fun r => FilterTaxNumber.filter_id (snd r) =? filter_id)
    (Sql.join (fun po f => String.eqb (Ownership.person_tax_number (snd po))
                                      (FilterTaxNumber.tax_number f))
       (Sql.join owns (patent_table db) (ownership_table db))
       (filter_table db)).

(** The patent column of the rows a statement built on
    [select_from(Patent)] ranges over. *)
Definition from_patent (db : Store) (filter_id : option Z) : list Patent.t :=
  match filter_id with
  | None => patent_table db
  | Some fid => map (fun r => fst (fst r)) (narrowed db fid)
  end.

(** The same for a statement built on [select_from(Patent).join(Ownership)]. *)
Definition from_patent_join_ownership (db : Store) (filter_id : option Z)
  : list Patent.t :=
  match filter_id with
  | None => map fst (Sql.join owns (patent_table db) (ownership_table db))
  | Some fid => map (fun r => fst (fst r)) (narrowed db fid)
  end.

Definition is_ru (p : Patent.t) : bool :=
  Sql.eq_str (Patent.country_code p) "RU".

(** The CASE expression labelled [author_count_group]. *)
Definition author_count_group (p : Patent.t) : string :=
  if Sql.eq_int (Patent.author_count p) 0 then "0"
  else if Sql.eq_int (Patent.author_count p) 1 then "1"
  else if Sql.le_int (Patent.author_count p) 5 then "2–5"
  else "5+".

Definition get_stats (db : Store) (filter_id : option Z)
  : Py.result PatentStatsResponse :=
  let total_patents := Sql.count (from_patent db filter_id) in
  let total_ru_patents := Sql.count (filter is_ru (from_patent db filter_id)) in
  let total_with_holders :=
    Sql.count_distinct key_eqb
      (map Patent.key (from_patent_join_ownership db filter_id)) in
  let total_ru_with_holders :=
    Sql.count_distinct key_eqb
      (map Patent.key (filter is_ru (from_patent_join_ownership db filter_id))) in
  with_holders_percent <-
    Py.int_round_div (100 * total_with_holders) total_patents ;;
  ru_with_holders_percent <-
    Py.int_round_div (100 * total_ru_with_holders) total_ru_patents ;;
  let by_author_count :=
    Sql.group_count String.eqb
      (map author_count_group (from_patent db filter_id)) in
  let by_patent_kind :=
    Sql.group_count Z.eqb (map Patent.kind (from_patent db filter_id)) in
  Py.Ok (mkStats total_patents total_ru_patents total_with_holders
                 total_ru_with_holders with_holders_percent
                 ru_with_holders_percent by_author_count by_patent_kind).

End CRUDPatent.

(** ** Person queries ([CRUDPerson], app/crud/person.py) *)

Module CRUDPerson.

(** One row of a grouped query: the category label (a nullable
    column) and its count. *)
Definition row : Type := (option string * Z)%type.

(** [{"name": name, "count": count}] *)
Record StatsItem : Type := mkItem { name : option string; count : Z }.

Record FromPersonPatentStatsResponse : Type := mkPatentStats {
  okopf_stats : list StatsItem;
  okvad_stats : list StatsItem;
  mpk_stats : list StatsItem
}.

Definition others_label : string := "Остальные".

Definition item_of_row (r : row) : StatsItem := mkItem (fst r) (snd r).

(** The helper nested in [get_patents_stats]; [all_data] is what
    [result.all()] returned for the query. *)
Definition get_top_5_and_others (all_data : list row) : list StatsItem :=
  match all_data with
  | [] => []
  | _ =>
      let top_5 := Py.slice_to 5 all_data in
      let others_sum := Py.sum (map snd (Py.slice_from 5 all_data)) in
      let result_list := map item_of_row top_5 in
      if others_sum >? 0
      then result_list ++ [mkItem (Some others_label) others_sum]
      else result_list
  end.

Definition person_owns (q : Person.t) (o : Ownership.t) : bool :=
  String.eqb (Person.tax_number q) (Ownership.person_tax_number o).

Definition okopf_stmt (db : Store) : list row :=
  Sql.order_by_count_desc
    (Sql.group_count opt_str_eqb
       (map (fun r => Person.okopf (fst r))
            (Sql.join person_owns (person_table db) (ownership_table db)))).

Definition okvad_stmt (db : Store) : list row :=
  Sql.order_by_count_desc
    (Sql.group_count opt_str_eqb
       (map (fun r => Person.okvad (fst r))
            (Sql.join person_owns (person_table db) (ownership_table db)))).

Definition mpk_stmt (db : Store) : list row :=
  Sql.order_by_count_desc
    (Sql.group_count opt_str_eqb
       (map (fun r => Patent.subcategory (fst r))
            (filter (fun r => (Patent.kind (fst r) =? 1) || (Patent.kind (fst r) =? 2))
                    (Sql.join owns (patent_table db) (ownership_table db))))).

Definition get_patents_stats (db : Store) : FromPersonPatentStatsResponse :=
  mkPatentStats (get_top_5_and_others (okopf_stmt db))
                (get_top_5_and_others (okvad_stmt db))
                (get_top_5_and_others (mpk_stmt db)).

(** *** Moscow statistics *)

Record MskStats : Type := mkMsk {
  total_persons : Z;
  by_kind : list (Z * Z);
  by_category : list (option string * Z);
  moscow_cluster_percentage : Py.number;
  moscow_support_type_percentage : Py.number
}.

(** [Person.region.ilike('%москва%')] *)
Definition is_msk (q : Person.t) : bool :=
  Sql.ilike_contains (Person.region q) "москва".

(** The Moscow persons a statement with [.select_from(Person)] ranges
    over, with the optional
    [.join(FilterTaxNumber, ...).filter_by(filter_id=filter_id)]. *)
Definition msk_persons (db : Store) (filter_id : option Z) : list Person.t :=
  match filter_id with
  | None => filter is_msk (person_table db)
  | Some fid =>
      map fst
        (filter (fun r => is_msk (fst r)
                          && (FilterTaxNumber.filter_id (snd r) =? fid))
           (Sql.join (fun q f => String.eqb (Person.tax_number q)
                                            (FilterTaxNumber.tax_number f))
              (person_table db) (filter_table db)))
  end.

Definition has_support_type (q : Person.t) : bool :=
  match Person.support_type q with Some _ => true | None => false end.

(** The first statement, [select(func.count()).filter(...)], names no
    table to select from: the [.join(FilterTaxNumber, ...)] that a
    filter id adds to it has nothing to join from, and executing the
    statement raises before any row is read. *)
Definition total_persons_msk (db : Store) (filter_id : option Z)
  : Py.result Z :=
  match filter_id with
  | None => Py.Ok (Sql.count (filter is_msk (person_table db)))
  | Some _ => Py.Raise Py.InvalidRequestError
  end.

Definition get_msk_stats (db : Store) (filter_id : option Z)
  : Py.result MskStats :=
  total_persons <- total_persons_msk db filter_id ;;
  let by_kind :=
    Sql.group_count Z.eqb (map Person.kind (msk_persons db filter_id)) in
  let by_category :=
    Sql.group_count opt_str_eqb
      (map Person.category (msk_persons db filter_id)) in
  let cluster_count :=
    Sql.count (filter (fun q => Person.uk q =? 1) (msk_persons db filter_id)) in
  let cluster_total := Sql.count (msk_persons db filter_id) in
  moscow_cluster_percentage <-
    (if negb (cluster_count =? 0) && (cluster_total >? 0)
     then Py.pct_round2 cluster_count cluster_total
     else Py.Ok (Py.Int 0)) ;;
  (* the support-type statement is executed without the filter join *)
  let count := Sql.count (filter has_support_type (msk_persons db None)) in
  let total_count := Sql.count (msk_persons db None) in
  moscow_support_type_percentage <- Py.pct_round2 count total_count ;;
  Py.Ok (mkMsk total_persons by_kind by_category
               moscow_cluster_percentage moscow_support_type_percentage).

End CRUDPerson.

(** ** Writes to the store *)

Module CRUDBase.

(** [CRUDBase] (app/crud/crud_base.py) is not among the sources: of the
    writes only the endpoints that call [create_object] and
    [delete_object], and the relationship [Person.ownerships] with its
    [cascade="all, delete-orphan"], are. *)

Definition has_patent (db : Store) (kind reg_number : Z) : bool :=
  existsb (fun p => key_eqb (Patent.key p) (kind, reg_number)) (patent_table db).

Definition has_person (db : Store) (tax_number : string) : bool :=
  existsb (fun q => String.eqb (Person.tax_number q) tax_number) (person_table db).

(** Modelled from the spec: [create_object] of [CRUDBase] is missing.
    A patent or a person is created by an upsert: the row with the same
    key is replaced, a row with a new key is added. *)
Definition upsert {A} (same : A -> A -> bool) (x : A) (l : list A) : list A :=
  if existsb (same x) l
  then map (fun y => if same x y then x else y) l
  else l ++ [x].

(** Modelled from the spec: [create_object] of [CRUDBase] is missing;
    the upsert of a patent on its composite key. *)
Definition create_patent (db : Store) (p : Patent.t) : Store :=
  mkStore (upsert (fun a b => key_eqb (Patent.key a) (Patent.key b)) p
                  (patent_table db))
          (person_table db) (ownership_table db) (filter_table db).

(** Modelled from the spec: [create_object] of [CRUDBase] is missing;
    the upsert of a person on its tax number. *)
Definition create_person (db : Store) (q : Person.t) : Store :=
  mkStore (patent_table db)
          (upsert (fun a b => String.eqb (Person.tax_number a) (Person.tax_number b))
                  q (person_table db))
          (ownership_table db) (filter_table db).

(** Modelled from the spec: the code that writes ownership rows is
    missing.  Every ownership row references an existing patent and
    person at write time: a row that violates a foreign key is refused
    and the store is left as it was. *)
Definition create_ownership (db : Store) (o : Ownership.t) : Store :=
  if has_patent db (Ownership.patent_kind o) (Ownership.patent_reg_number o)
     && has_person db (Ownership.person_tax_number o)
  then mkStore (patent_table db) (person_table db)
               (ownership_table db ++ [o]) (filter_table db)
  else db.

(** Modelled from the spec: [delete_object] of [CRUDBase] is missing.
    Deleting a person removes, with the person, the ownership rows
    reached through [Person.ownerships]. *)
Definition delete_person (db : Store) (tax_number : string) : Store :=
  mkStore (patent_table db)
          (filter (fun q => negb (String.eqb (Person.tax_number q) tax_number))
                  (person_table db))
          (filter (fun o => negb (String.eqb (Ownership.person_tax_number o) tax_number))
                  (ownership_table db))
          (filter_table db).

(** Modelled from the spec: [delete_object] of [CRUDBase] and the
    mapping of [Patent] are missing.  Deleting a patent by its
    composite key cascades to its ownership rows. *)
Definition delete_patent (db : Store) (kind reg_number : Z) : Store :=
  mkStore (filter (fun p => negb (key_eqb (Patent.key p) (kind, reg_number)))
                  (patent_table db))
          (person_table db)
          (filter (fun o => negb (key_eqb (Ownership.patent_kind o,
                                           Ownership.patent_reg_number o)
                                          (kind, reg_number)))
                  (ownership_table db))
          (filter_table db).

(** Modelled from the spec: the upload of a filter list is missing; it
    adds tax numbers under a filter identifier. *)
Definition add_filter_tax_number (db : Store) (f : FilterTaxNumber.t) : Store :=
  mkStore (patent_table db) (person_table db) (ownership_table db)
          (filter_table db ++ [f]).

Inductive op : Type :=
| CreatePatent (p : Patent.t)
| CreatePerson (q : Person.t)
| CreateOwnership (o : Ownership.t)
| DeletePatent (kind reg_number : Z)
| DeletePerson (tax_number : string)
| AddFilterTaxNumber (f : FilterTaxNumber.t).

Definition apply (db : Store) (o : op) : Store :=
  match o with
  | CreatePatent p => create_patent db p
  | CreatePerson q => create_person db q
  | CreateOwnership o' => create_ownership db o'
  | DeletePatent k r => delete_patent db k r
  | DeletePerson t => delete_person db t
  | AddFilterTaxNumber f => add_filter_tax_number db f
  end.

(** The store after a history of writes, oldest first. *)
Definition run (history : list op) : Store :=
  fold_left apply history empty_store.

(** Every ownership row references an existing patent and an existing
    person. *)
Definition no_dangling (db : Store) : bool :=
  forallb (fun o =>
             has_patent db (Ownership.patent_kind o) (Ownership.patent_reg_number o)
             && has_person db (Ownership.person_tax_number o))
          (ownership_table db).

Definition ownerships_of_person (db : Store) (tax_number : string)
  : list Ownership.t :=
  filter (fun o => String.eqb (Ownership.person_tax_number o) tax_number)
         (ownership_table db).

Definition ownerships_of_patent (db : Store) (kind reg_number : Z)
  : list Ownership.t :=
  filter (fun o => key_eqb (Ownership.patent_kind o, Ownership.patent_reg_number o)
                           (kind, reg_number))
         (ownership_table db).

End CRUDBase.

(** ** Store states up to row order

    The order of the rows of a table is not part of the state of the
    database: two stores whose tables hold the same rows are the same
    state, with its rows produced in a different order. *)

Definition same_state (db1 db2 : Store) : Prop :=
  Permutation (patent_table db1) (patent_table db2)
  /\ Permutation (person_table db1) (person_table db2)
  /\ Permutation (ownership_table db1) (ownership_table db2)
  /\ Permutation (filter_table db1) (filter_table db2).

(** Integrity constraints the database itself enforces: the primary key
    of [patent], the primary key of [person], and the foreign key from
    [ownership] to [person]. *)
Definition patent_pk (db : Store) : Prop :=
  NoDup (map Patent.key (patent_table db)).



(** ** Notions used in the statements, and sample stores *)

(** The remainder entry of the folding, when it is due. *)
Definition others_entry (all_data : list CRUDPerson.row) : list CRUDPerson.StatsItem :=
  let tail_sum := Py.sum (map snd (skipn 5 all_data)) in
  if (5 <? List.length all_data)%nat && (tail_sum >? 0)
  then [CRUDPerson.mkItem (Some CRUDPerson.others_label) tail_sum]
  else [].

Definition top5_sample : list CRUDPerson.row :=
  [(Some "A", 9); (Some "B", 7); (Some "C", 5); (Some "D", 3);
   (Some "E", 2); (Some "F", 1); (None, 1)].

Definition sample_P1 : Patent.t :=
  Patent.mk 1 101 "P1" true (Some "RU") (Some "A61") (Some 2).
Definition sample_P2 : Patent.t :=
  Patent.mk 1 102 "P2" false (Some "RU") None (Some 0).
Definition sample_P3 : Patent.t :=
  Patent.mk 2 103 "P3" true (Some "US") (Some "B60") (Some 6).
Definition sample_Q1 : Person.t :=
  Person.mk 1 "7701" (Some "Alpha") None (Some "12300") (Some "72.19")
            (Some "г. Москва") "1027700000001" 1 None.
Definition sample_Q2 : Person.t :=
  Person.mk 1 "7802" (Some "Beta") None (Some "12300") (Some "62.01")
            (Some "Санкт-Петербург") "1027800000002" 0 (Some "grant").

(** Three patents, two of them with one owner each. *)
Definition sample_store : Store :=
  mkStore [sample_P1; sample_P2; sample_P3]
          [sample_Q1; sample_Q2]
          [Ownership.mk 1 101 "7701"; Ownership.mk 2 103 "7802"]
          [FilterTaxNumber.mk 4 "7701"; FilterTaxNumber.mk 4 "7802"].

(** One patent with two owners, both of them in filter 4. *)
Definition two_owner_store : Store :=
  mkStore [sample_P1]
          [sample_Q1; sample_Q2]
          [Ownership.mk 1 101 "7701"; Ownership.mk 1 101 "7802"]
          [FilterTaxNumber.mk 4 "7701"; FilterTaxNumber.mk 4 "7802"].

Definition author_count_labels : list string := ["0"; "1"; "2–5"; "5+"].

(** The FROM clause of the listings over a part of the patent table. *)
Definition rows_of (db : Store) (ps : list Patent.t)
  : list (Patent.t * option Ownership.t * option Person.t) :=
  Sql.outerjoin (fun po q => owner_is (snd po) q)
    (Sql.outerjoin owns ps (ownership_table db))
    (person_table db).

(** The conjunction of the optional [where] clauses. *)
Definition matches (kind : option Z) (actual : option bool) (p : Patent.t) : bool :=
  CRUDPatent.kind_matches kind p && CRUDPatent.actual_matches actual p.


(** The patents that have an owner among the given tax numbers. *)
Definition has_owner_in (db : Store) (tax_numbers : list string) (p : Patent.t) : bool :=
  existsb (fun o => owns p o
                    && existsb (String.eqb (Ownership.person_tax_number o)) tax_numbers)
          (ownership_table db).

(** The row count the filtered listing returns as [total]. *)
Definition filtered_total (db : Store) (filter_id : Z) : Z :=
  Sql.count
    (filter (fun r => Sql.in_str (option_map Ownership.person_tax_number (snd r))
                                 (CRUDPatent.filter_tax_number_list db filter_id))
            (Sql.outerjoin owns (patent_table db) (ownership_table db))).




(** ** Person totals ([CRUDPerson.get_all_stats], app/crud/person.py) *)

Module AllStats.

Record PersonsAllStats : Type := mkAll {
  total_persons : Z;
  by_kind : list (Z * Z);
  by_category : list (option string * Z)
}.

(** The persons a statement built on [select_from(Person)] ranges
    over, with the optional
    [.join(FilterTaxNumber, Person.tax_number == FilterTaxNumber.tax_number)
     .filter_by(filter_id=filter_id)]. *)
Definition from_person (db : Store) (filter_id : option Z) : list Person.t :=
  match filter_id with
  | None => person_table db
  | Some fid =>
      map fst
        (filter (fun r => FilterTaxNumber.filter_id (snd r) =? fid)
           (Sql.join (fun q f => String.eqb (Person.tax_number q)
                                            (FilterTaxNumber.tax_number f))
              (person_table db) (filter_table db)))
  end.

Definition get_all_stats (db : Store) (filter_id : option Z) : PersonsAllStats :=
  let total_persons := Sql.count (from_person db filter_id) in
  let by_kind :=
    Sql.group_count Z.eqb (map Person.kind (from_person db filter_id)) in
  let by_category :=
    Sql.group_count opt_str_eqb (map Person.category (from_person db filter_id)) in
  mkAll total_persons by_kind by_category.

End AllStats.

(** ** Single records ([get_person], [get_patent]) *)

Module Detail.

(** What the two functions can raise: the exceptions of [Result.one]
    and [Result.one_or_none], the [TypeError] of unpacking [None], and
    whatever building the holder list raises. *)
Inductive exn : Type :=
| NoResultFound
| MultipleResultsFound
| TypeError
| Python (e : Py.exn).

Inductive result (A : Type) : Type :=
| Ok (a : A)
| Raise (e : exn).

Arguments Ok {A} a.
Arguments Raise {A} e.

(** [Result.one()] *)
Definition one {A} (rows : list A) : result A :=
  match rows with
  | [] => Raise NoResultFound
  | [x] => Ok x
  | _ => Raise MultipleResultsFound
  end.

(** [Result.one_or_none()] *)
Definition one_or_none {A} (rows : list A) : result (option A) :=
  match rows with
  | [] => Ok None
  | [x] => Ok (Some x)
  | _ => Raise MultipleResultsFound
  end.

Definition lift {A} (m : Py.result A) : result A :=
  match m with
  | Py.Ok a => Ok a
  | Py.Raise e => Raise (Python e)
  end.

(** *** [CRUDPerson.get_person] *)

(** [{"kind": ownership.patent_kind, "reg_number": ownership.patent_reg_number}] *)
Record PersonPatents : Type := mkPatentRef { kind : Z; reg_number : Z }.

(** [{**person.__dict__, "category": ..., "patents": ..., "patent_count": ...}] *)
Record PersonDetail : Type := mkPerson {
  person : Person.t;
  category : option string;
  patents : list PersonPatents;
  patent_count : Z
}.

(** The loaded relationship [Person.ownerships]. *)
Definition Person_ownerships (db : Store) (q : Person.t) : list Ownership.t :=
  filter (CRUDPerson.person_owns q) (ownership_table db).

(** The rows of the statement: one per person with the wanted tax
    number, with [count(Ownership.patent_reg_number)] over its group. *)
Definition person_rows (db : Store) (person_tax_number : string)
  : list (Person.t * Z) :=
  let joined :=
    filter (fun r => String.eqb (Person.tax_number (fst r)) person_tax_number)
           (Sql.outerjoin CRUDPerson.person_owns (person_table db)
                          (ownership_table db)) in
  map (fun q =>
         (q, Sql.count
               (filter (fun r => String.eqb (Person.tax_number (fst r))
                                            (Person.tax_number q)
                                 && match snd r with Some _ => true | None => false end)
                       joined)))
      (Sql.group_by String.eqb Person.tax_number (map fst joined)).

(** [Result.unique()]: rows that show the same person and count are
    returned once. *)
Definition unique (rows : list (Person.t * Z)) : list (Person.t * Z) :=
  Sql.distinct (fun a b => String.eqb (Person.tax_number (fst a))
                                      (Person.tax_number (fst b))
                           && (snd a =? snd b))
               rows.

Definition get_person (db : Store) (person_tax_number : string)
  : result PersonDetail :=
  match one_or_none (unique (person_rows db person_tax_number)) with
  | Raise e => Raise e
  | Ok None => Raise TypeError          (* [person, patent_count = None] *)
  | Ok (Some (person, _)) =>
      let patents :=
        map (fun o => mkPatentRef (Ownership.patent_kind o)
                                  (Ownership.patent_reg_number o))
            (Person_ownerships db person) in
      Ok (mkPerson person (Person.category person) patents
                   (Z.of_nat (List.length patents)))
  end.

(** *** [CRUDPatent.get_patent] *)

(** [string_agg(expr, delimiter)]: the values that are not NULL, joined;
    NULL when there is none. *)
Definition string_agg (vals : list (option string)) (delimiter : string)
  : option string :=
  match flat_map (fun v => match v with Some s => [s] | None => [] end) vals with
  | [] => None
  | present => Some (String.concat delimiter present)
  end.

(** The number of places where [", "] occurs. *)
Fixpoint separators (s : string) : Z :=
  match s with
  | EmptyString => 0
  | String _ s' => (if String.prefix ", " s then 1 else 0) + separators s'
  end.

(** [coalesce(array_length(string_to_array(author_raw, ', '), 1), 0)]:
    the empty string splits into the empty array, whose length is
    NULL. *)
Definition author_count_of (author_raw : option string) : Z :=
  match author_raw with
  | None => 0
  | Some EmptyString => 0
  | Some s => separators s + 1
  end.

(** [{**patent.__dict__, "owner_raw": ..., "patent_holders": ...}] *)
Record PatentDetail : Type := mkPatent {
  patent : Patent.t;
  owner_raw : option string;
  patent_holders : list CRUDPatent.PatentHolder
}.

Section GetPatent.

(** The columns [Person.short_name] and [Patent.author_raw], which the
    records above do not carry. *)
Variable short_name : Person.t -> option string.
Variable author_raw : Patent.t -> option string.

(** The rows of the statement: one per patent with the wanted key,
    with the aggregated short names of its owners and the number of
    its authors. *)
Definition patent_rows (db : Store) (patent_kind patent_reg_number : Z)
  : list (Patent.t * option string * Z) :=
  let joined :=
    filter (fun r => (Patent.kind (CRUDPatent.row_patent r) =? patent_kind)
                     && (Patent.reg_number (CRUDPatent.row_patent r) =? patent_reg_number))
           (CRUDPatent.listing_rows db) in
  map (fun p =>
         (p,
          string_agg
            (map (fun r => match snd r with
                           | Some q => short_name q
                           | None => None
                           end)
                 (filter (fun r => key_eqb (Patent.key (CRUDPatent.row_patent r))
                                           (Patent.key p))
                         joined))
            ", ",
          author_count_of (author_raw p)))
      (Sql.group_by key_eqb Patent.key (map CRUDPatent.row_patent joined)).

Definition get_patent (db : Store) (patent_kind patent_reg_number : Z)
  : result PatentDetail :=
  match one (patent_rows db patent_kind patent_reg_number) with
  | Raise e => Raise e
  | Ok (patent, owner_raw, _) =>
      match Py.mapM (CRUDPatent.holder_of db) (Patent_ownerships db patent) with
      | Py.Raise e => Raise (Python e)
      | Py.Ok patent_holders => Ok (mkPatent patent owner_raw patent_holders)
      end
  end.

End GetPatent.

End Detail.

(** ** Notions used in the further statements *)

(** The number of selected patents to which the CASE expression of
    [by_author_count] gives the label. *)
Definition bucket_size (rows : list Patent.t) (label : string) : Z :=
  Sql.count (filter (fun p => String.eqb label (CRUDPatent.author_count_group p))
                    rows).

(** A statistics result counts a selected patent under a label: the
    patent gets the label, and [by_author_count] has the entry of that
    label, with the number of selected patents that get it. *)
Definition counted_under (r : CRUDPatent.PatentStatsResponse)
           (rows : list Patent.t) (p : Patent.t) (label : string) : Prop :=
  CRUDPatent.author_count_group p = label
  /\ In (label, bucket_size rows label) (CRUDPatent.by_author_count r).

(** A patent has an ownership row. *)
Definition has_owner (db : Store) (p : Patent.t) : bool :=
  existsb (owns p) (ownership_table db).

(** Counts in descending order. *)
Fixpoint sorted_desc (l : list Z) : Prop :=
  match l with
  | [] => True
  | x :: l' => Forall (fun y => y <= x) l' /\ sorted_desc l'
  end.

(** The rows the three breakdowns of [get_patents_stats] group. *)
Definition person_ownership_rows (db : Store) : list (Person.t * Ownership.t) :=
  Sql.join CRUDPerson.person_owns (person_table db) (ownership_table db).

Definition mpk_rows (db : Store) : list (Patent.t * Ownership.t) :=
  filter (fun r => (Patent.kind (fst r) =? 1) || (Patent.kind (fst r) =? 2))
         (Sql.join owns (patent_table db) (ownership_table db)).

(** The primary key of [person]. *)
Definition person_pk (db : Store) : Prop :=
  NoDup (map Person.tax_number (person_table db)).

(** A store with one Moscow person, who is in filter 4, and one Moscow
    person outside it who has a support-program label. *)
Definition msk_store : Store :=
  mkStore []
          [sample_Q1;
           Person.mk 2 "7703" (Some "Gamma") (Some "small") None None
                     (Some "Москва") "1027700000003" 0 (Some "subsidy")]
          []
          [FilterTaxNumber.mk 4 "7701"].

(** What [get_stats] returns for [sample_store] without a filter. *)
Definition sample_stats : CRUDPatent.PatentStatsResponse :=
  CRUDPatent.mkStats 3 2 2 1 67 50
    [("2–5", 1); ("0", 1); ("5+", 1)] [(1, 2); (2, 1)].

(** What [get_stats] returns for [two_owner_store], without a filter
    and with filter 4. *)
Definition two_owner_stats : CRUDPatent.PatentStatsResponse :=
  CRUDPatent.mkStats 1 1 1 1 100 100 [("2–5", 1)] [(1, 1)].

Definition two_owner_stats_filtered : CRUDPatent.PatentStatsResponse :=
  CRUDPatent.mkStats 2 2 1 1 50 50 [("2–5", 2)] [(1, 2)].

(** What the filtered listing returns for [two_owner_store] and
    filter 4. *)
Definition two_owner_listing : CRUDPatent.PatentListResponse :=
  CRUDPatent.mkList 2
    [CRUDPatent.mkItem sample_P1
       [CRUDPatent.mkHolder "7701" (Some "Alpha");
        CRUDPatent.mkHolder "7802" (Some "Beta")]].

(** What [get_msk_stats] returns for [msk_store] without a filter. *)
Definition msk_stats_all : CRUDPerson.MskStats :=
  CRUDPerson.mkMsk 2 [(1, 1); (2, 1)] [(None, 1); (Some "small", 1)]
                   (Py.PctRound2 1 2) (Py.PctRound2 1 2).


(** One breakdown of [get_patents_stats]: the labels of the joined rows
    grouped, counted, ordered by count and folded. *)
Definition breakdown (labels : list (option string)) : list CRUDPerson.StatsItem :=
  CRUDPerson.get_top_5_and_others
    (Sql.order_by_count_desc (Sql.group_count opt_str_eqb labels)).

(** What [get_patent] and [get_person] return for [two_owner_store],
    patent (1, 101) and person 7701, with the full name standing in for
    the short name and no author string. *)
Definition two_owner_patent : Detail.PatentDetail :=
  Detail.mkPatent sample_P1 (Some "Alpha, Beta")
    [CRUDPatent.mkHolder "7701" (Some "Alpha");
     CRUDPatent.mkHolder "7802" (Some "Beta")].

Definition two_owner_person : Detail.PersonDetail :=
  Detail.mkPerson sample_Q1 None [Detail.mkPatentRef 1 101] 1.

(* ===================================================================== *)
(** * Part II: properties                                                 *)
(* ===================================================================== *)

(** ** Sums and slices *)

Lemma sum_app (l1 l2 : list Z) : Py.sum (l1 ++ l2) = Py.sum l1 + Py.sum l2.
Proof.
  unfold Py.sum. induction l1 as [|x l1 IH]; simpl; [reflexivity|].
  rewrite IH. lia.
Qed.

Lemma sum_nonneg (l : list Z) : Forall (fun z => 0 <= z) l -> 0 <= Py.sum l.
Proof.
  unfold Py.sum. induction 1 as [|x l Hx _ IH]; simpl; lia.
Qed.

Lemma sum_split (n : nat) (l : list Z) :
  Py.sum l = Py.sum (firstn n l) + Py.sum (skipn n l).
Proof. rewrite <- sum_app, firstn_skipn. reflexivity. Qed.

Lemma in_skipn_in {A} (n : nat) (l : list A) (x : A) :
  In x (skipn n l) -> In x l.
Proof.
  intros H. rewrite <- (firstn_skipn n l). apply in_or_app. now right.
Qed.

Lemma in_firstn_in {A} (n : nat) (l : list A) (x : A) :
  In x (firstn n l) -> In x l.
Proof.
  intros H. rewrite <- (firstn_skipn n l). apply in_or_app. now left.
Qed.

Lemma map_count_item_of_row (l : list CRUDPerson.row) :
  map CRUDPerson.count (map CRUDPerson.item_of_row l) = map snd l.
Proof. rewrite map_map. apply map_ext. intros [? ?]. reflexivity. Qed.

(** ** Top-5 folding *)

Example top5_seven_rows :
  CRUDPerson.get_top_5_and_others
    [(Some "A", 100); (Some "B", 80); (Some "C", 50); (Some "D", 20);
     (Some "E", 10); (Some "F", 5); (Some "G", 1)]
  = [CRUDPerson.mkItem (Some "A") 100; CRUDPerson.mkItem (Some "B") 80;
     CRUDPerson.mkItem (Some "C") 50; CRUDPerson.mkItem (Some "D") 20;
     CRUDPerson.mkItem (Some "E") 10;
     CRUDPerson.mkItem (Some CRUDPerson.others_label) 6].
Proof. reflexivity. Qed.

Example top5_two_rows :
  CRUDPerson.get_top_5_and_others [(Some "A", 3); (Some "B", 1)]
  = [CRUDPerson.mkItem (Some "A") 3; CRUDPerson.mkItem (Some "B") 1].
Proof. reflexivity. Qed.

Lemma short_tail_sum (all_data : list CRUDPerson.row) :
  (List.length all_data <= 5)%nat -> Py.sum (map snd (skipn 5 all_data)) = 0.
Proof. intros H. rewrite skipn_all2 by exact H. reflexivity. Qed.

Lemma top5_nonempty (all_data : list CRUDPerson.row) :
  all_data <> [] ->
  CRUDPerson.get_top_5_and_others all_data
  = if Py.sum (map snd (skipn 5 all_data)) >? 0
    then map CRUDPerson.item_of_row (firstn 5 all_data)
         ++ [CRUDPerson.mkItem (Some CRUDPerson.others_label)
                               (Py.sum (map snd (skipn 5 all_data)))]
    else map CRUDPerson.item_of_row (firstn 5 all_data).
Proof. destruct all_data; [congruence | reflexivity]. Qed.

Lemma top5_unfold (all_data : list CRUDPerson.row) :
  CRUDPerson.get_top_5_and_others all_data
  = map CRUDPerson.item_of_row (firstn 5 all_data) ++ others_entry all_data.
Proof.
  destruct (list_eq_dec (fun a b : CRUDPerson.row =>
                           ltac:(repeat decide equality) : {a = b} + {a <> b})
                        all_data []) as [->|Hne]; [reflexivity|].
  rewrite (top5_nonempty Hne). unfold others_entry. cbv zeta.
  destruct (Nat.ltb_spec 5 (List.length all_data)) as [Hlong|Hshort].
  - cbn [andb]. destruct (Py.sum (map snd (skipn 5 all_data)) >? 0).
    + reflexivity.
    + now rewrite app_nil_r.
  - rewrite (short_tail_sum all_data Hshort). cbn [Z.gtb Z.compare andb].
    now rewrite app_nil_r.
Qed.

(** C2.  For every sequence of (label, count) rows -- sorted or not --
    [get_top_5_and_others] returns the first [min n 5] rows verbatim,
    followed by one remainder entry carrying the sum of the remaining
    counts exactly when [n > 5] and that sum is strictly positive; the
    empty input gives the empty output, and the output has
    [min n 5 + (1 if n > 5 and tail sum > 0 else 0)] entries. *)
Theorem top5_shape (all_data : list CRUDPerson.row) :
  let n := List.length all_data in
  let tail_sum := Py.sum (map snd (skipn 5 all_data)) in
  let others :=
    if (5 <? n)%nat && (tail_sum >? 0)
    then [CRUDPerson.mkItem (Some CRUDPerson.others_label) tail_sum]
    else [] in
  CRUDPerson.get_top_5_and_others all_data
  = map CRUDPerson.item_of_row (firstn (Nat.min n 5) all_data) ++ others
  /\ List.length (CRUDPerson.get_top_5_and_others all_data)
     = (Nat.min n 5 + (if (5 <? n)%nat && (tail_sum >? 0) then 1 else 0))%nat
  /\ (all_data = [] -> CRUDPerson.get_top_5_and_others all_data = []).
Proof.
  intros n tail_sum others.
  assert (Hfirst : firstn (Nat.min n 5) all_data = firstn 5 all_data).
  { destruct (Nat.le_gt_cases n 5) as [Hle|Hgt].
    - rewrite Nat.min_l by exact Hle.
      rewrite !firstn_all2; trivial; subst n; lia.
    - rewrite Nat.min_r by lia. reflexivity. }
  assert (Heq : CRUDPerson.get_top_5_and_others all_data
                = map CRUDPerson.item_of_row (firstn (Nat.min n 5) all_data)
                  ++ others).
  { rewrite Hfirst. apply top5_unfold. }
  split; [exact Heq|split].
  - rewrite Heq, length_app, length_map, length_firstn.
    fold n. subst others.
    rewrite (Nat.min_l (Nat.min n 5) n) by lia.
    destruct ((5 <? n)%nat && (tail_sum >? 0)); reflexivity.
  - intros ->. reflexivity.
Qed.

Lemma others_entry_sum (all_data : list CRUDPerson.row) :
  Forall (fun r => 0 <= snd r) all_data ->
  Py.sum (map CRUDPerson.count (others_entry all_data))
  = Py.sum (map snd (skipn 5 all_data)).
Proof.
  intros Hpos. unfold others_entry. cbv zeta.
  assert (Htail : 0 <= Py.sum (map snd (skipn 5 all_data))).
  { apply sum_nonneg. apply Forall_forall. intros z Hz.
    apply in_map_iff in Hz. destruct Hz as [r [<- Hr]].
    apply in_skipn_in in Hr. rewrite Forall_forall in Hpos. auto. }
  destruct (Nat.ltb_spec 5 (List.length all_data)) as [Hlong|Hshort]; cbn [andb].
  - remember (Py.sum (map snd (skipn 5 all_data))) as tail_sum eqn:E.
    clear E. destruct (Z.gtb_spec tail_sum 0); unfold Py.sum; simpl; lia.
  - rewrite skipn_all2 by lia. reflexivity.
Qed.

(** C10.  With non-negative counts the folding preserves the total:
    the counts of the output, the remainder entry included, add up to
    the counts of the whole input. *)
Theorem top5_preserves_total (all_data : list CRUDPerson.row) :
  Forall (fun r => 0 <= snd r) all_data ->
  Py.sum (map CRUDPerson.count (CRUDPerson.get_top_5_and_others all_data))
  = Py.sum (map snd all_data).
Proof.
  intros Hpos.
  rewrite top5_unfold, map_app, sum_app, map_count_item_of_row.
  rewrite (others_entry_sum Hpos).
  rewrite (sum_split 5 (map snd all_data)), firstn_map, skipn_map.
  reflexivity.
Qed.

Lemma top5_preserves_total_witness :
  Forall (fun r => 0 <= snd r) top5_sample
  /\ Py.sum (map CRUDPerson.count (CRUDPerson.get_top_5_and_others top5_sample))
     = Py.sum (map snd top5_sample).
Proof.
  assert (H : Forall (fun r : CRUDPerson.row => 0 <= snd r) top5_sample)
    by (repeat constructor; simpl; lia).
  split; [exact H | apply (top5_preserves_total H)].
Defined.

(** ** Patent statistics *)

Example get_stats_sample :
  CRUDPatent.get_stats sample_store None
  = Py.Ok (CRUDPatent.mkStats 3 2 2 1 67 50
             [("2–5", 1); ("0", 1); ("5+", 1)] [(1, 2); (2, 1)]).
Proof. reflexivity. Qed.


(** Whatever the filter, a selection without patents makes the first
    percentage raise. *)
Lemma get_stats_no_patents (db : Store) (filter_id : option Z) :
  CRUDPatent.from_patent db filter_id = [] ->
  CRUDPatent.get_stats db filter_id = Py.Raise Py.ZeroDivisionError.
Proof.
  intros H. unfold CRUDPatent.get_stats. rewrite H. reflexivity.
Qed.


(** C1.  On the empty store, and for a filter without tax numbers,
    [get_stats] does not return zero percentages: the division
    [100 * total_with_holders / total_patents] has a zero denominator
    and raises.  A store without Russian patents raises in the second
    division. *)
Theorem get_stats_empty_store_raises :
  CRUDPatent.get_stats empty_store None = Py.Raise Py.ZeroDivisionError
  /\ CRUDPatent.get_stats sample_store (Some 5) = Py.Raise Py.ZeroDivisionError
  /\ CRUDPatent.get_stats (mkStore [sample_P3] [] [] []) None
     = Py.Raise Py.ZeroDivisionError.
Proof. repeat split; reflexivity. Qed.

(** C4.  In [two_owner_store] the only patent has two owners in filter
    4: the filtered [total_patents] counts it once per owner and exceeds
    the unfiltered one. *)
Theorem get_stats_filter_inflates :
  exists r rf,
    CRUDPatent.get_stats two_owner_store None = Py.Ok r
    /\ CRUDPatent.get_stats two_owner_store (Some 4) = Py.Ok rf
    /\ CRUDPatent.total_patents r = 1
    /\ CRUDPatent.total_patents rf = 2
    /\ CRUDPatent.total_with_holders rf = 1.
Proof. do 2 eexists. repeat split; reflexivity. Qed.

(** *** Author-count buckets *)

Lemma author_count_group_cases (p : Patent.t) :
  CRUDPatent.author_count_group p = "0"
  \/ CRUDPatent.author_count_group p = "1"
  \/ CRUDPatent.author_count_group p = "2–5"
  \/ CRUDPatent.author_count_group p = "5+".
Proof.
  unfold CRUDPatent.author_count_group.
  destruct (Sql.eq_int _ 0); [tauto|].
  destruct (Sql.eq_int _ 1); [tauto|].
  destruct (Sql.le_int _ 5); tauto.
Qed.

(** The grouped count of [get_stats] without a filter is the count of
    the patents of each bucket. *)
Lemma group_count_lookup {K} (eqb : K -> K -> bool) (l : list K) (k : K) (c : Z) :
  In (k, c) (Sql.group_count eqb l) -> c = Sql.count (filter (eqb k) l).
Proof.
  unfold Sql.group_count. intros H. apply in_map_iff in H.
  destruct H as [k' [E _]]. now inversion E.
Qed.

Lemma by_author_count_unfiltered (db : Store) (r : CRUDPatent.PatentStatsResponse) :
  CRUDPatent.get_stats db None = Py.Ok r ->
  forall label c,
    In (label, c) (CRUDPatent.by_author_count r) ->
    c = Sql.count (filter (fun p => String.eqb label (CRUDPatent.author_count_group p))
                          (patent_table db)).
Proof.
  unfold CRUDPatent.get_stats. intros H label c Hin.
  destruct (Py.int_round_div _ _) as [w|]; [|discriminate].
  destruct (Py.int_round_div _ _) as [w'|]; [|discriminate].
  cbn in H. inversion H; subst r; clear H. cbn in Hin.
  apply group_count_lookup in Hin. subst c. unfold Sql.count.
  f_equal. clear. simpl CRUDPatent.from_patent.
  induction (patent_table db) as [|p l IH]; simpl; [reflexivity|].
  destruct (String.eqb label _); simpl; now rewrite IH.
Qed.

(** The CASE expression of [by_author_count] gives every patent
    exactly one of the four labels, and by author count: 0 goes to "0",
    1 to "1", 2 to 5 (inclusive) to "2–5", more than 5 to "5+". *)
Lemma author_count_group_ranges (p : Patent.t) :
  (exists! label, In label author_count_labels
                  /\ CRUDPatent.author_count_group p = label)
  /\ forall n, Patent.author_count p = Some n ->
       (n = 0 -> CRUDPatent.author_count_group p = "0")
       /\ (n = 1 -> CRUDPatent.author_count_group p = "1")
       /\ (2 <= n <= 5 -> CRUDPatent.author_count_group p = "2–5")
       /\ (5 < n -> CRUDPatent.author_count_group p = "5+").
Proof.
  split.
  - exists (CRUDPatent.author_count_group p). split.
    + split; [|reflexivity]. unfold author_count_labels.
      destruct (author_count_group_cases p) as [E|[E|[E|E]]];
        rewrite E; simpl; tauto.
    + intros label [_ E]. exact E.
  - intros n Hn. unfold CRUDPatent.author_count_group. rewrite Hn.
    unfold Sql.eq_int, Sql.le_int.
    repeat split; intros H.
    + subst n. reflexivity.
    + subst n. reflexivity.
    + destruct (Z.eqb_spec n 0); [lia|]. destruct (Z.eqb_spec n 1); [lia|].
      destruct (Z.leb_spec n 5); [reflexivity|lia].
    + destruct (Z.eqb_spec n 0); [lia|]. destruct (Z.eqb_spec n 1); [lia|].
      destruct (Z.leb_spec n 5); [lia|reflexivity].
Qed.

Example author_count_five_and_six :
  CRUDPatent.author_count_group (Patent.mk 1 1 "" true None None (Some 5)) = "2–5"
  /\ CRUDPatent.author_count_group sample_P3 = "5+"
  /\ CRUDPatent.author_count_group sample_P2 = "0".
Proof. repeat split. Qed.

(** ** Moscow statistics *)

Example is_msk_sample :
  map CRUDPerson.is_msk [sample_Q1; sample_Q2] = [true; false].
Proof. reflexivity. Qed.

Lemma pct_round2_zero (count : Z) :
  Py.pct_round2 count 0 = Py.Raise Py.ZeroDivisionError.
Proof. reflexivity. Qed.

(** The guarded cluster percentage never raises. *)
Lemma cluster_percentage_guarded (cluster_count cluster_total : Z) :
  exists v,
    (if negb (cluster_count =? 0) && (cluster_total >? 0)
     then Py.pct_round2 cluster_count cluster_total
     else Py.Ok (Py.Int 0)) = Py.Ok v
    /\ (cluster_total = 0 -> v = Py.Int 0).
Proof.
  destruct (negb (cluster_count =? 0)); cbn [andb].
  - destruct (Z.gtb_spec cluster_total 0) as [Hpos|Hle].
    + unfold Py.pct_round2. destruct (Z.eqb_spec cluster_total 0); [lia|].
      eexists; split; [reflexivity|lia].
    + eexists; split; reflexivity.
  - eexists; split; reflexivity.
Qed.

(** With a filter id the first statement cannot be executed. *)
Lemma get_msk_stats_filter_raises (db : Store) (filter_id : Z) :
  CRUDPerson.get_msk_stats db (Some filter_id)
  = Py.Raise Py.InvalidRequestError.
Proof. reflexivity. Qed.

(** Without a filter and without a Moscow person the unguarded
    support-type percentage raises. *)
Lemma get_msk_stats_no_msk_person (db : Store) :
  filter CRUDPerson.is_msk (person_table db) = [] ->
  CRUDPerson.get_msk_stats db None = Py.Raise Py.ZeroDivisionError.
Proof.
  intros H. unfold CRUDPerson.get_msk_stats, CRUDPerson.total_persons_msk.
  cbn [Py.bind].
  destruct (cluster_percentage_guarded
              (Sql.count (filter (fun q => Person.uk q =? 1)
                                 (CRUDPerson.msk_persons db None)))
              (Sql.count (CRUDPerson.msk_persons db None))) as [v [-> _]].
  cbn [Py.bind]. unfold CRUDPerson.msk_persons at 1 2. rewrite H.
  reflexivity.
Qed.

(** Without a filter and with a Moscow person in the store both
    percentages are computed. *)
Lemma get_msk_stats_returns (db : Store) :
  filter CRUDPerson.is_msk (person_table db) <> [] ->
  exists r, CRUDPerson.get_msk_stats db None = Py.Ok r.
Proof.
  intros H. unfold CRUDPerson.get_msk_stats, CRUDPerson.total_persons_msk.
  cbn [Py.bind].
  destruct (cluster_percentage_guarded
              (Sql.count (filter (fun q => Person.uk q =? 1)
                                 (CRUDPerson.msk_persons db None)))
              (Sql.count (CRUDPerson.msk_persons db None))) as [v [-> _]].
  cbn [Py.bind]. unfold Py.pct_round2.
  destruct (Z.eqb_spec (Sql.count (CRUDPerson.msk_persons db None)) 0) as [E|_].
  - exfalso. apply H. unfold CRUDPerson.msk_persons, Sql.count in E.
    destruct (filter CRUDPerson.is_msk (person_table db)); [reflexivity|].
    simpl in E. lia.
  - cbn [Py.bind]. eexists. reflexivity.
Qed.

(** C5.  On a store without Moscow persons [get_msk_stats] does not
    return zero percentages: the cluster percentage is guarded, the
    support-type percentage divides by the zero total and raises. *)
Theorem get_msk_stats_empty_store_raises :
  CRUDPerson.get_msk_stats empty_store None = Py.Raise Py.ZeroDivisionError
  /\ CRUDPerson.get_msk_stats
       (mkStore [] [sample_Q2] [] []) None = Py.Raise Py.ZeroDivisionError.
Proof. split; reflexivity. Qed.

(** ** Lists, joins and groups *)

Lemma key_eqb_spec (a b : Z * Z) : key_eqb a b = true <-> a = b.
Proof.
  destruct a as [a1 a2], b as [b1 b2]. unfold key_eqb. simpl.
  rewrite andb_true_iff, !Z.eqb_eq. split.
  - intros [-> ->]. reflexivity.
  - intros E. inversion E. auto.
Qed.


Lemma filter_all {A} (f : A -> bool) (l : list A) :
  (forall x, In x l -> f x = true) -> filter f l = l.
Proof.
  intros H. apply forallb_filter_id, forallb_forall. exact H.
Qed.

Lemma filter_none {A} (f : A -> bool) (l : list A) :
  (forall x, In x l -> f x = false) -> filter f l = [].
Proof.
  induction l as [|x l IH]; intros H; simpl; [reflexivity|].
  rewrite (H x (or_introl eq_refl)). apply IH. intros y Hy. apply H. now right.
Qed.

Lemma filter_idem {A} (f : A -> bool) (l : list A) :
  filter f (filter f l) = filter f l.
Proof.
  apply filter_all. intros x Hx. now apply filter_In in Hx.
Qed.



Lemma Forall_firstn {A} (P : A -> Prop) (n : nat) (l : list A) :
  Forall P l -> Forall P (firstn n l).
Proof.
  rewrite !Forall_forall. intros H x Hx. apply H. eapply in_firstn_in, Hx.
Qed.

Lemma Forall_skipn {A} (P : A -> Prop) (n : nat) (l : list A) :
  Forall P l -> Forall P (skipn n l).
Proof.
  rewrite !Forall_forall. intros H x Hx. apply H. eapply in_skipn_in, Hx.
Qed.

Section Joins.
Variables A B : Type.
Variable on : A -> B -> bool.

Lemma outerjoin_app (l1 l2 : list A) (r : list B) :
  Sql.outerjoin on (l1 ++ l2) r = Sql.outerjoin on l1 r ++ Sql.outerjoin on l2 r.
Proof. unfold Sql.outerjoin. apply flat_map_app. Qed.

Lemma outerjoin_cons (a : A) (l : list A) (r : list B) :
  Sql.outerjoin on (a :: l) r = Sql.outerjoin on [a] r ++ Sql.outerjoin on l r.
Proof. apply (outerjoin_app [a] l r). Qed.

Lemma outerjoin_one (a : A) (r : list B) :
  Sql.outerjoin on [a] r <> []
  /\ Forall (fun x => fst x = a) (Sql.outerjoin on [a] r).
Proof.
  unfold Sql.outerjoin. simpl. rewrite app_nil_r.
  destruct (filter (on a) r) as [|b ms].
  - split; [discriminate | repeat constructor].
  - split; [discriminate|].
    apply Forall_forall. intros x Hx.
    change (In x (map (fun b' => (a, Some b')) (b :: ms))) in Hx.
    apply in_map_iff in Hx. destruct Hx as [b' [<- _]]. reflexivity.
Qed.

Lemma in_outerjoin (a : A) (ob : option B) (l : list A) (r : list B) :
  In (a, ob) (Sql.outerjoin on l r) ->
  In a l /\ match ob with
            | Some b => In b r /\ on a b = true
            | None => filter (on a) r = []
            end.
Proof.
  unfold Sql.outerjoin. rewrite in_flat_map. intros [a' [Ha' Hin]].
  destruct (filter (on a') r) as [|b0 ms] eqn:E.
  - destruct Hin as [Hin|[]]. inversion Hin; subst. auto.
  - change (In (a, ob) (map (fun b => (a', Some b)) (b0 :: ms))) in Hin.
    apply in_map_iff in Hin. destruct Hin as [b [Hb Hin]].
    inversion Hb; subst. split; [assumption|].
    rewrite <- E in Hin. now apply filter_In in Hin.
Qed.

Lemma outerjoin_nonempty (l : list A) (r : list B) :
  l <> [] -> Sql.outerjoin on l r <> [].
Proof.
  destruct l as [|a l]; [congruence|]. intros _.
  rewrite outerjoin_cons. destruct (outerjoin_one a r) as [Hne _].
  destruct (Sql.outerjoin on [a] r); [congruence | discriminate].
Qed.

Lemma outerjoin_const {C} (g : A -> C) (c : C) (l : list A) (r : list B) :
  Forall (fun x => g x = c) l ->
  Forall (fun y => g (fst y) = c) (Sql.outerjoin on l r).
Proof.
  rewrite !Forall_forall. intros H [a ob] Hin.
  apply in_outerjoin in Hin. apply H, Hin.
Qed.

End Joins.

Section GroupBy.
Variables A K : Type.
Variable eqb : K -> K -> bool.
Variable key : A -> K.
Hypothesis eqb_refl : forall k, eqb k k = true.

Lemma group_by_block (a : A) (blk rest : list A) :
  blk <> [] -> Forall (eq a) blk ->
  Sql.group_by eqb key (blk ++ rest)
  = a :: filter (fun b => negb (eqb (key a) (key b))) (Sql.group_by eqb key rest).
Proof.
  induction blk as [|x blk IH]; [congruence|].
  intros _ Hall. inversion Hall as [|? ? Hx Hblk]; subst x.
  destruct blk as [|y blk].
  - reflexivity.
  - change (Sql.group_by eqb key ((a :: y :: blk) ++ rest))
      with (a :: filter (fun b => negb (eqb (key a) (key b)))
                        (Sql.group_by eqb key ((y :: blk) ++ rest))).
    rewrite IH by (trivial; discriminate).
    simpl filter at 1. rewrite eqb_refl. simpl negb. cbv iota.
    now rewrite filter_idem.
Qed.

Lemma in_group_by (a : A) (l : list A) :
  In a (Sql.group_by eqb key l) -> In a l.
Proof.
  revert a. induction l as [|x l IH]; simpl; [tauto|].
  intros a [->|Hin]; [now left|]. right. apply IH.
  now apply filter_In in Hin.
Qed.
End GroupBy.

(** ** The error monad *)


Lemma mapM_inv {A B} (f : A -> Py.result B) (g : B -> A) (l : list A) (l' : list B) :
  (forall x y, f x = Py.Ok y -> g y = x) ->
  Py.mapM f l = Py.Ok l' -> map g l' = l.
Proof.
  intros Hg. revert l'. induction l as [|x l IH]; simpl; intros l' H.
  - now inversion H.
  - destruct (f x) as [y|] eqn:Ex; [|discriminate]. simpl in H.
    destruct (Py.mapM f l) as [ys|]; [|discriminate]. simpl in H.
    inversion H; subst l'. simpl. now rewrite (Hg x y Ex), (IH ys eq_refl).
Qed.

Lemma mapM_length {A B} (f : A -> Py.result B) (l : list A) (l' : list B) :
  Py.mapM f l = Py.Ok l' -> List.length l' = List.length l.
Proof.
  revert l'. induction l as [|x l IH]; simpl; intros l' H.
  - now inversion H.
  - destruct (f x) as [y|]; [|discriminate]. simpl in H.
    destruct (Py.mapM f l) as [ys|]; [|discriminate]. simpl in H.
    inversion H; subst l'. simpl. now rewrite (IH ys eq_refl).
Qed.

(** ** Patent listings *)

Lemma rows_of_cons (db : Store) (p : Patent.t) (ps : list Patent.t) :
  rows_of db (p :: ps) = rows_of db [p] ++ rows_of db ps.
Proof. unfold rows_of. now rewrite outerjoin_cons, outerjoin_app. Qed.

Lemma rows_of_one (db : Store) (p : Patent.t) :
  rows_of db [p] <> []
  /\ Forall (fun r => CRUDPatent.row_patent r = p) (rows_of db [p]).
Proof.
  unfold rows_of.
  destruct (outerjoin_one owns p (ownership_table db)) as [Hne Hall].
  split.
  - now apply outerjoin_nonempty.
  - unfold CRUDPatent.row_patent.
    exact (@outerjoin_const _ _ (fun po q => owner_is (snd po) q) _
                            (@fst _ _) p _ (person_table db) Hall).
Qed.


Lemma item_of_patent (db : Store) (p : Patent.t) (it : CRUDPatent.PatentItem) :
  CRUDPatent.item_of db p = Py.Ok it -> CRUDPatent.patent it = p.
Proof.
  unfold CRUDPatent.item_of. destruct (Py.mapM _ _); simpl; intros H.
  - now inversion H.
  - discriminate.
Qed.



(** OFFSET and LIMIT are accepted exactly when both lie between zero
    and the largest 64-bit integer. *)
Lemma offset_limit_cases {A} (skip n : Z) (l : list A) :
  (0 <= skip <= Sql.int64_max /\ 0 <= n <= Sql.int64_max
   /\ Sql.offset_limit skip n l
      = Py.Ok (firstn (Z.to_nat n) (skipn (Z.to_nat skip) l)))
  \/ ((skip < 0 \/ n < 0 \/ Sql.int64_max < skip \/ Sql.int64_max < n)
      /\ Sql.offset_limit skip n l = Py.Raise Py.DataError).
Proof.
  unfold Sql.offset_limit.
  destruct (Z.ltb_spec skip 0); [right; split; [lia|reflexivity]|].
  destruct (Z.ltb_spec n 0); [right; split; [lia|reflexivity]|].
  destruct (Z.ltb_spec Sql.int64_max skip); [right; split; [lia|reflexivity]|].
  destruct (Z.ltb_spec Sql.int64_max n); [right; split; [lia|reflexivity]|].
  left. repeat split; trivial.
Qed.


Lemma offset_limit_inv {A} (skip n : Z) (l l' : list A) :
  Sql.offset_limit skip n l = Py.Ok l' ->
  0 <= skip /\ 0 <= n
  /\ l' = firstn (Z.to_nat n) (skipn (Z.to_nat skip) l).
Proof.
  destruct (offset_limit_cases skip n l) as [[Hs [Hn E]]|[_ E]];
    rewrite E; [|discriminate].
  intros H. inversion H. repeat split; lia.
Qed.

Lemma offset_limit_length {A} (skip n : Z) (l l' : list A) :
  Sql.offset_limit skip n l = Py.Ok l' ->
  0 <= n /\ Z.of_nat (List.length l') <= n.
Proof.
  intros E. apply offset_limit_inv in E. destruct E as [_ [Hn ->]].
  split; [assumption|]. rewrite length_firstn. lia.
Qed.

(** Whenever the plain listing returns, it returns no more than
    [pagesize] items, and the number of rows of the patent table as
    [total], whatever the page and the [kind] and [actual] arguments. *)
Lemma get_patents_list_inv (db : Store) (page pagesize : Z)
      (kind : option Z) (actual : option bool) (r : CRUDPatent.PatentListResponse) :
  CRUDPatent.get_patents_list db page pagesize kind actual = Py.Ok r ->
  CRUDPatent.total r = Sql.count (patent_table db)
  /\ Z.of_nat (List.length (CRUDPatent.items r)) <= pagesize.
Proof.
  unfold CRUDPatent.get_patents_list. cbv zeta.
  destruct (Sql.offset_limit _ _ _) as [page_rows|] eqn:Eo; [|discriminate].
  cbn [Py.bind].
  destruct (Py.mapM _ page_rows) as [its|] eqn:Em; [|discriminate].
  cbn [Py.bind]. intros H. inversion H; subst r. cbn.
  split; [reflexivity|].
  rewrite (mapM_length _ _ Em). now apply offset_limit_length in Eo.
Qed.


Example get_patents_list_sample :
  option_map (map CRUDPatent.patent)
    match CRUDPatent.get_patents_list sample_store 1 2 (Some 1) None with
    | Py.Ok r => Some (CRUDPatent.items r)
    | Py.Raise _ => None
    end
  = Some [sample_P1; sample_P2].
Proof. reflexivity. Qed.

(** C3.  In [sample_store] only one of the three patents is of kind 2,
    and the listing for [kind = 2] returns that one patent; yet [total]
    is 3, the row count of the whole patent table. *)
Theorem get_patents_list_total_ignores_where :
  exists r,
    CRUDPatent.get_patents_list sample_store 1 10 (Some 2) None = Py.Ok r
    /\ map CRUDPatent.patent (CRUDPatent.items r) = [sample_P3]
    /\ Sql.count (filter (matches (Some 2) None) (patent_table sample_store)) = 1
    /\ CRUDPatent.total r = 3.
Proof. eexists. repeat split; reflexivity. Qed.

(** *** Order of the items *)







(** *** Row order and the constraints *)

Lemma same_state_sym (db1 db2 : Store) : same_state db1 db2 -> same_state db2 db1.
Proof.
  unfold same_state. intros (H1 & H2 & H3 & H4).
  repeat split; now apply Permutation_sym.
Qed.



(** *** The filtered listing *)



Lemma get_patents_list_with_filter_inv (db : Store) (page pagesize filter_id : Z)
      (r : CRUDPatent.PatentListResponse) :
  CRUDPatent.get_patents_list_with_filter db page pagesize filter_id = Py.Ok r ->
  CRUDPatent.total r = filtered_total db filter_id
  /\ Z.of_nat (List.length (CRUDPatent.items r)) <= pagesize
  /\ forall it, In it (CRUDPatent.items r) ->
       In (CRUDPatent.patent it) (patent_table db)
       /\ has_owner_in db (CRUDPatent.filter_tax_number_list db filter_id)
                       (CRUDPatent.patent it) = true.
Proof.
  unfold CRUDPatent.get_patents_list_with_filter. cbv zeta.
  destruct (Sql.offset_limit _ _ _) as [page_rows|] eqn:Eo; [|discriminate].
  cbn [Py.bind].
  destruct (Py.mapM _ page_rows) as [its|] eqn:Em; [|discriminate].
  cbn [Py.bind]. intros H. inversion H; subst r. cbn.
  split; [reflexivity|]. split.
  - rewrite (mapM_length _ _ Em). now apply offset_limit_length in Eo.
  - intros it Hit.
    assert (Hp : In (CRUDPatent.patent it) page_rows).
    { rewrite <- (mapM_inv (CRUDPatent.item_of db) CRUDPatent.patent page_rows
                           (item_of_patent db) Em).
      now apply in_map. }
    clear Em Hit. apply offset_limit_inv in Eo. destruct Eo as [_ [_ ->]].
    apply in_firstn_in, in_skipn_in, in_group_by, in_map_iff in Hp.
    destruct Hp as [[[p o] q] [Ep Hrow]]. apply filter_In in Hrow.
    destruct Hrow as [Hrow Hq]. unfold CRUDPatent.row_patent in Ep.
    simpl in Ep, Hq. subst p.
    apply in_outerjoin in Hrow. destruct Hrow as [Hpo Hon].
    destruct q as [q|]; [|discriminate]. destruct Hon as [_ Hon].
    destruct o as [o|]; [|discriminate]. simpl in Hon, Hq.
    apply String.eqb_eq in Hon.
    apply in_outerjoin in Hpo. destruct Hpo as [Hin [Ho Howns]].
    split; [exact Hin|].
    unfold has_owner_in. apply existsb_exists. exists o. split; [exact Ho|].
    rewrite Howns. simpl. now rewrite <- Hon.
Qed.


Example filtered_listing_two_owners :
  option_map (map CRUDPatent.patent)
    match CRUDPatent.get_patents_list_with_filter two_owner_store 1 10 4 with
    | Py.Ok r => Some (CRUDPatent.items r)
    | Py.Raise _ => None
    end
  = Some [sample_P1].
Proof. reflexivity. Qed.

(** C8.  In [two_owner_store] one patent has an owner in filter 4, and
    the filtered listing returns that one patent; its [total] is 2, one
    for each of the two owners of the patent that are in the filter. *)
Theorem filtered_listing_total_counts_owners :
  exists r,
    CRUDPatent.get_patents_list_with_filter two_owner_store 1 10 4 = Py.Ok r
    /\ map CRUDPatent.patent (CRUDPatent.items r) = [sample_P1]
    /\ Sql.count (filter (has_owner_in two_owner_store
                            (CRUDPatent.filter_tax_number_list two_owner_store 4))
                         (patent_table two_owner_store)) = 1
    /\ CRUDPatent.total r = 2.
Proof. eexists. repeat split; reflexivity. Qed.

(** *** Determinism of the listings *)









(** ** Cascading deletes *)

Lemma upsert_existsb {A} (same : A -> A -> bool) (g : A -> bool) (x : A) (l : list A) :
  (forall y, same x y = true -> g y = true -> g x = true) ->
  existsb g l = true -> existsb g (CRUDBase.upsert same x l) = true.
Proof.
  intros Hg H. unfold CRUDBase.upsert. destruct (existsb (same x) l).
  - apply existsb_exists in H. destruct H as [y [Hy Gy]].
    apply existsb_exists.
    exists (if same x y then x else y). split.
    + apply in_map_iff. now exists y.
    + destruct (same x y) eqn:E; [now apply (Hg y) | exact Gy].
  - rewrite existsb_app, H. reflexivity.
Qed.

Lemma no_dangling_spec (db : Store) :
  CRUDBase.no_dangling db = true <->
  forall o, In o (ownership_table db) ->
    CRUDBase.has_patent db (Ownership.patent_kind o) (Ownership.patent_reg_number o) = true
    /\ CRUDBase.has_person db (Ownership.person_tax_number o) = true.
Proof.
  unfold CRUDBase.no_dangling. rewrite forallb_forall.
  split; intros H o Ho; specialize (H o Ho); now apply andb_true_iff.
Qed.

Lemma create_patent_keeps (db : Store) (p : Patent.t) :
  CRUDBase.no_dangling db = true ->
  CRUDBase.no_dangling (CRUDBase.create_patent db p) = true.
Proof.
  rewrite !no_dangling_spec. intros H o Ho. destruct (H o Ho) as [Hp Hq].
  split; [|exact Hq].
  unfold CRUDBase.has_patent, CRUDBase.create_patent. simpl.
  apply upsert_existsb; [|exact Hp].
  intros y Hsame Hy. apply key_eqb_spec in Hsame, Hy.
  apply key_eqb_spec. congruence.
Qed.

Lemma create_person_keeps (db : Store) (q : Person.t) :
  CRUDBase.no_dangling db = true ->
  CRUDBase.no_dangling (CRUDBase.create_person db q) = true.
Proof.
  rewrite !no_dangling_spec. intros H o Ho. destruct (H o Ho) as [Hp Hq].
  split; [exact Hp|].
  unfold CRUDBase.has_person, CRUDBase.create_person. simpl.
  apply upsert_existsb; [|exact Hq].
  intros y Hsame Hy. apply String.eqb_eq in Hsame, Hy.
  apply String.eqb_eq. congruence.
Qed.

Lemma create_ownership_keeps (db : Store) (o : Ownership.t) :
  CRUDBase.no_dangling db = true ->
  CRUDBase.no_dangling (CRUDBase.create_ownership db o) = true.
Proof.
  intros H. unfold CRUDBase.create_ownership.
  destruct (CRUDBase.has_patent db _ _ && CRUDBase.has_person db _) eqn:E;
    [|exact H].
  apply andb_true_iff in E. rewrite no_dangling_spec in *.
  intros o' Ho'. simpl in Ho'. apply in_app_or in Ho'.
  destruct Ho' as [Ho'|[<-|[]]]; [now apply H | exact E].
Qed.

Lemma delete_patent_keeps (db : Store) (kind reg_number : Z) :
  CRUDBase.no_dangling db = true ->
  CRUDBase.no_dangling (CRUDBase.delete_patent db kind reg_number) = true.
Proof.
  rewrite !no_dangling_spec. intros H o Ho. simpl in Ho.
  apply filter_In in Ho. destruct Ho as [Ho Hkey].
  destruct (H o Ho) as [Hp Hq]. split; [|exact Hq].
  unfold CRUDBase.has_patent in *. simpl.
  apply existsb_exists in Hp. destruct Hp as [p [Hin Hk]].
  apply existsb_exists. exists p. split; [|exact Hk].
  apply filter_In. split; [exact Hin|].
  apply key_eqb_spec in Hk. now rewrite Hk.
Qed.

Lemma delete_person_keeps (db : Store) (tax_number : string) :
  CRUDBase.no_dangling db = true ->
  CRUDBase.no_dangling (CRUDBase.delete_person db tax_number) = true.
Proof.
  rewrite !no_dangling_spec. intros H o Ho. simpl in Ho.
  apply filter_In in Ho. destruct Ho as [Ho Hkey].
  destruct (H o Ho) as [Hp Hq]. split; [exact Hp|].
  unfold CRUDBase.has_person in *. simpl.
  apply existsb_exists in Hq. destruct Hq as [q [Hin Hk]].
  apply existsb_exists. exists q. split; [|exact Hk].
  apply filter_In. split; [exact Hin|].
  apply String.eqb_eq in Hk. now rewrite Hk.
Qed.

Lemma apply_keeps (db : Store) (o : CRUDBase.op) :
  CRUDBase.no_dangling db = true ->
  CRUDBase.no_dangling (CRUDBase.apply db o) = true.
Proof.
  destruct o; simpl.
  - apply create_patent_keeps.
  - apply create_person_keeps.
  - apply create_ownership_keeps.
  - apply delete_patent_keeps.
  - apply delete_person_keeps.
  - trivial.
Qed.

Lemma history_keeps (history : list CRUDBase.op) (db : Store) :
  CRUDBase.no_dangling db = true ->
  CRUDBase.no_dangling (fold_left CRUDBase.apply history db) = true.
Proof.
  revert db. induction history as [|o history IH]; intros db H; simpl.
  - exact H.
  - now apply IH, apply_keeps.
Qed.

Lemma delete_person_clears (db : Store) (tax_number : string) :
  CRUDBase.ownerships_of_person (CRUDBase.delete_person db tax_number) tax_number = [].
Proof.
  unfold CRUDBase.ownerships_of_person, CRUDBase.delete_person. simpl.
  apply filter_none. intros o Ho. apply filter_In in Ho.
  now apply negb_true_iff.
Qed.

Lemma delete_patent_clears (db : Store) (kind reg_number : Z) :
  CRUDBase.ownerships_of_patent (CRUDBase.delete_patent db kind reg_number)
                                kind reg_number = [].
Proof.
  unfold CRUDBase.ownerships_of_patent, CRUDBase.delete_patent. simpl.
  apply filter_none. intros o Ho. apply filter_In in Ho.
  now apply negb_true_iff.
Qed.

Example cascade_sample :
  ownership_table
    (CRUDBase.run [CRUDBase.CreatePatent sample_P1;
                   CRUDBase.CreatePerson sample_Q1;
                   CRUDBase.CreatePerson sample_Q2;
                   CRUDBase.CreateOwnership (Ownership.mk 1 101 "7701");
                   CRUDBase.CreateOwnership (Ownership.mk 1 101 "7802");
                   CRUDBase.CreateOwnership (Ownership.mk 3 999 "7802");
                   CRUDBase.DeletePerson "7701"])
  = [Ownership.mk 1 101 "7802"].
Proof. reflexivity. Qed.

(** C9.  After deleting a person no ownership row references its tax
    number, after deleting a patent none references its key, and in
    every store reached by a history of writes each ownership row
    references an existing patent and an existing person. *)
Theorem cascade_keeps_references (history : list CRUDBase.op) :
  CRUDBase.no_dangling (CRUDBase.run history) = true
  /\ (forall tax_number,
         CRUDBase.ownerships_of_person
           (CRUDBase.delete_person (CRUDBase.run history) tax_number) tax_number = [])
  /\ (forall kind reg_number,
         CRUDBase.ownerships_of_patent
           (CRUDBase.delete_patent (CRUDBase.run history) kind reg_number)
           kind reg_number = []).
Proof.
  split; [|split].
  - unfold CRUDBase.run. now apply history_keeps.
  - intros. apply delete_person_clears.
  - intros. apply delete_patent_clears.
Qed.

(* ===================================================================== *)
(** * Part III: further properties of the query layer                     *)
(* ===================================================================== *)

(** ** Distinct values and grouped counts *)

Lemma opt_str_eqb_spec (a b : option string) : opt_str_eqb a b = true <-> a = b.
Proof.
  destruct a as [x|], b as [y|]; simpl; try (split; congruence).
  rewrite String.eqb_eq. split; congruence.
Qed.

Lemma count_nonneg {A} (l : list A) : 0 <= Sql.count l.
Proof. unfold Sql.count. lia. Qed.

Lemma count_filter_le {A} (f : A -> bool) (l : list A) :
  Sql.count (filter f l) <= Sql.count l.
Proof.
  unfold Sql.count. apply Nat2Z.inj_le.
  induction l as [|x l IH]; simpl; [lia|]. destruct (f x); simpl; lia.
Qed.

Lemma sum_map_add {A} (f g : A -> Z) (l : list A) :
  Py.sum (map (fun x => f x + g x) l) = Py.sum (map f l) + Py.sum (map g l).
Proof.
  unfold Py.sum. induction l as [|x l IH]; simpl; lia.
Qed.

Lemma sum_map_zero {A} (l : list A) : Py.sum (map (fun _ => 0) l) = 0.
Proof. unfold Py.sum. induction l as [|x l IH]; simpl; lia. Qed.

Section Distinct.
Variable K : Type.
Variable eqb : K -> K -> bool.
Hypothesis eqb_spec : forall a b, eqb a b = true <-> a = b.

Lemma eqb_same (a : K) : eqb a a = true.
Proof. now apply eqb_spec. Qed.

Lemma in_distinct (k : K) (l : list K) : In k (Sql.distinct eqb l) <-> In k l.
Proof.
  induction l as [|x l IH]; simpl; [tauto|].
  rewrite filter_In, IH. split.
  - intros [->|[H _]]; auto.
  - intros [->|H]; [now left|].
    destruct (eqb x k) eqn:E.
    + left. now apply eqb_spec.
    + right. split; trivial.
Qed.

Lemma NoDup_distinct (l : list K) : NoDup (Sql.distinct eqb l).
Proof.
  induction l as [|x l IH]; simpl; constructor.
  - rewrite filter_In. intros [_ H]. now rewrite eqb_same in H.
  - now apply NoDup_filter.
Qed.

Lemma distinct_length_incl (l m : list K) :
  incl l m -> (List.length (Sql.distinct eqb l) <= List.length m)%nat.
Proof.
  intros H. apply NoDup_incl_length; [apply NoDup_distinct|].
  intros k Hk. apply H. now apply in_distinct.
Qed.

Lemma count_distinct_incl (l m : list K) :
  incl l m -> Sql.count_distinct eqb l <= Sql.count m.
Proof.
  intros H. unfold Sql.count_distinct, Sql.count.
  apply Nat2Z.inj_le. now apply distinct_length_incl.
Qed.

Lemma count_distinct_mono (l m : list K) :
  incl l m -> Sql.count_distinct eqb l <= Sql.count_distinct eqb m.
Proof.
  intros H. unfold Sql.count_distinct.
  apply Nat2Z.inj_le, distinct_length_incl.
  intros k Hk. apply in_distinct. now apply H.
Qed.

Lemma sum_indicator (x : K) (ks : list K) :
  NoDup ks -> In x ks ->
  Py.sum (map (fun k => if eqb k x then 1 else 0) ks) = 1.
Proof.
  induction 1 as [|k ks Hk Hnd IH]; intros Hin; [destruct Hin|].
  change (Py.sum (map (fun k0 => if eqb k0 x then 1 else 0) (k :: ks)))
    with ((if eqb k x then 1 else 0)
          + Py.sum (map (fun k0 => if eqb k0 x then 1 else 0) ks)).
  destruct (eqb k x) eqn:E.
  - apply eqb_spec in E. subst k.
    assert (Hz : Py.sum (map (fun k0 => if eqb k0 x then 1 else 0) ks) = 0).
    { clear IH Hin Hnd. induction ks as [|y ks IH]; [reflexivity|].
      change (Py.sum (map (fun k0 => if eqb k0 x then 1 else 0) (y :: ks)))
        with ((if eqb y x then 1 else 0)
              + Py.sum (map (fun k0 => if eqb k0 x then 1 else 0) ks)).
      destruct (eqb y x) eqn:Ey.
      - apply eqb_spec in Ey. subst y. exfalso. apply Hk. now left.
      - rewrite IH; [reflexivity|]. intros H. apply Hk. now right. }
    lia.
  - destruct Hin as [->|Hin]; [now rewrite eqb_same in E|].
    rewrite (IH Hin). lia.
Qed.

Lemma sum_occurrences (ks l : list K) :
  NoDup ks -> incl l ks ->
  Py.sum (map (fun k => Sql.count (filter (eqb k) l)) ks) = Sql.count l.
Proof.
  intros Hnd. induction l as [|x l IH]; intros Hincl.
  - simpl. apply sum_map_zero.
  - rewrite (map_ext _ (fun k => (if eqb k x then 1 else 0)
                                 + Sql.count (filter (eqb k) l))).
    + rewrite sum_map_add, sum_indicator, IH; trivial.
      * unfold Sql.count. simpl List.length. lia.
      * intros y Hy. apply Hincl. now right.
      * apply Hincl. now left.
    + intros k. simpl. unfold Sql.count. destruct (eqb k x); simpl List.length; lia.
Qed.

Lemma group_count_keys (l : list K) :
  map fst (Sql.group_count eqb l) = Sql.distinct eqb l.
Proof.
  unfold Sql.group_count. rewrite map_map. simpl. apply map_id.
Qed.

Lemma group_count_sum (l : list K) :
  Py.sum (map snd (Sql.group_count eqb l)) = Sql.count l.
Proof.
  unfold Sql.group_count. rewrite map_map. simpl.
  apply sum_occurrences; [apply NoDup_distinct|].
  intros k Hk. now apply in_distinct.
Qed.

Lemma group_count_in (l : list K) (k : K) :
  In k l -> In (k, Sql.count (filter (eqb k) l)) (Sql.group_count eqb l).
Proof.
  intros H. unfold Sql.group_count.
  apply (in_map (fun k => (k, Sql.count (filter (eqb k) l)))).
  now apply in_distinct.
Qed.

Lemma group_count_positive (l : list K) (k : K) (c : Z) :
  In (k, c) (Sql.group_count eqb l) -> In k l /\ 1 <= c.
Proof.
  unfold Sql.group_count. intros H. apply in_map_iff in H.
  destruct H as [k' [E Hk]]. inversion E; subst.
  apply (proj1 (in_distinct k l)) in Hk.
  split; [exact Hk|]. unfold Sql.count.
  assert (Hin : In k (filter (eqb k) l)) by (apply filter_In; split; [exact Hk | apply eqb_same]).
  destruct (filter (eqb k) l); [destruct Hin | simpl List.length; lia].
Qed.

Lemma distinct_as_group_by (l : list K) :
  Sql.distinct eqb l = Sql.group_by eqb (fun k => k) l.
Proof.
  induction l as [|x l IH]; simpl; [reflexivity|]. now rewrite IH.
Qed.
End Distinct.

Lemma in_join {A B} (on : A -> B -> bool) (a : A) (b : B) (l : list A) (r : list B) :
  In (a, b) (Sql.join on l r) <-> In a l /\ In b r /\ on a b = true.
Proof.
  unfold Sql.join. rewrite in_flat_map. split.
  - intros [a' [Ha Hin]]. apply in_map_iff in Hin.
    destruct Hin as [b' [E Hb]]. inversion E; subst.
    apply filter_In in Hb. tauto.
  - intros (Ha & Hb & Hon). exists a. split; [exact Ha|].
    apply in_map, filter_In. tauto.
Qed.

(** ** Patent statistics, further *)

Lemma round_half_even_bounds (n d m : Z) :
  0 < d -> 0 <= n -> n <= m * d ->
  0 <= Py.round_half_even n d <= m.
Proof.
  intros Hd Hn Hm. unfold Py.round_half_even.
  pose proof (Z.div_mod n d ltac:(lia)) as E.
  pose proof (Z.mod_pos_bound n d Hd) as Hr.
  assert (Hq : 0 <= n / d) by (apply Z.div_pos; lia).
  destruct (Z.ltb_spec (2 * (n mod d)) d); [nia|].
  assert (n / d + 1 <= m) by nia.
  destruct (Z.ltb_spec d (2 * (n mod d))); [lia|].
  destruct (Z.even (n / d)); lia.
Qed.

(** What [get_stats] returns when it returns. *)
Lemma get_stats_inv (db : Store) (filter_id : option Z)
      (r : CRUDPatent.PatentStatsResponse) :
  CRUDPatent.get_stats db filter_id = Py.Ok r ->
  Sql.count (CRUDPatent.from_patent db filter_id) <> 0
  /\ Sql.count (filter CRUDPatent.is_ru (CRUDPatent.from_patent db filter_id)) <> 0
  /\ r = CRUDPatent.mkStats
           (Sql.count (CRUDPatent.from_patent db filter_id))
           (Sql.count (filter CRUDPatent.is_ru (CRUDPatent.from_patent db filter_id)))
           (Sql.count_distinct key_eqb
              (map Patent.key (CRUDPatent.from_patent_join_ownership db filter_id)))
           (Sql.count_distinct key_eqb
              (map Patent.key
                   (filter CRUDPatent.is_ru
                           (CRUDPatent.from_patent_join_ownership db filter_id))))
           (Py.round_half_even
              (100 * Sql.count_distinct key_eqb
                       (map Patent.key
                            (CRUDPatent.from_patent_join_ownership db filter_id)))
              (Sql.count (CRUDPatent.from_patent db filter_id)))
           (Py.round_half_even
              (100 * Sql.count_distinct key_eqb
                       (map Patent.key
                            (filter CRUDPatent.is_ru
                                    (CRUDPatent.from_patent_join_ownership db filter_id))))
              (Sql.count (filter CRUDPatent.is_ru (CRUDPatent.from_patent db filter_id))))
           (Sql.group_count String.eqb
              (map CRUDPatent.author_count_group (CRUDPatent.from_patent db filter_id)))
           (Sql.group_count Z.eqb
              (map Patent.kind (CRUDPatent.from_patent db filter_id))).
Proof.
  unfold CRUDPatent.get_stats, Py.int_round_div. cbv zeta.
  destruct (Z.eqb_spec (Sql.count (CRUDPatent.from_patent db filter_id)) 0)
    as [|H1]; [discriminate|].
  destruct (Z.eqb_spec
              (Sql.count (filter CRUDPatent.is_ru
                                 (CRUDPatent.from_patent db filter_id))) 0)
    as [|H2]; [discriminate|].
  cbn [Py.bind]. intros E. inversion E. auto.
Qed.

Lemma existsb_filter_nil {A} (f : A -> bool) (l : list A) :
  existsb f l = false <-> filter f l = [].
Proof.
  induction l as [|x l IH]; simpl; [tauto|].
  destruct (f x); simpl; [split; discriminate | exact IH].
Qed.


Lemma count_map {A B} (f : A -> B) (l : list A) : Sql.count (map f l) = Sql.count l.
Proof. unfold Sql.count. now rewrite length_map. Qed.

Lemma with_holders_le_total (db : Store) (filter_id : option Z)
      (sel : Patent.t -> bool) :
  Sql.count_distinct key_eqb
    (map Patent.key (filter sel (CRUDPatent.from_patent_join_ownership db filter_id)))
  <= Sql.count (filter sel (CRUDPatent.from_patent db filter_id)).
Proof.
  destruct filter_id as [fid|]; simpl.
  - rewrite <- (count_map Patent.key (filter sel _)).
    apply (@count_distinct_incl _ key_eqb key_eqb_spec). apply incl_refl.
  - rewrite <- (count_map Patent.key (filter sel (patent_table db))).
    apply (@count_distinct_incl _ key_eqb key_eqb_spec).
    intros k Hk. apply in_map_iff in Hk. destruct Hk as [p [<- Hp]].
    apply in_map. apply filter_In in Hp. destruct Hp as [Hp Hs].
    apply filter_In. split; [|exact Hs].
    apply in_map_iff in Hp. destruct Hp as [[p' o] [E Hin]]. simpl in E. subst p'.
    now apply in_join in Hin.
Qed.

Lemma filter_true {A} (l : list A) : filter (fun _ => true) l = l.
Proof. induction l as [|x l IH]; simpl; [reflexivity | now rewrite IH]. Qed.

(** X2.  Whenever [get_stats] returns, with or without a filter, the
    four totals are ordered as their names say and both percentages lie
    between 0 and 100. *)
Theorem get_stats_bounds (db : Store) (filter_id : option Z)
        (r : CRUDPatent.PatentStatsResponse) :
  CRUDPatent.get_stats db filter_id = Py.Ok r ->
  0 < CRUDPatent.total_ru_patents r <= CRUDPatent.total_patents r
  /\ 0 <= CRUDPatent.total_ru_with_holders r <= CRUDPatent.total_with_holders r
  /\ CRUDPatent.total_with_holders r <= CRUDPatent.total_patents r
  /\ CRUDPatent.total_ru_with_holders r <= CRUDPatent.total_ru_patents r
  /\ 0 <= CRUDPatent.with_holders_percent r <= 100
  /\ 0 <= CRUDPatent.ru_with_holders_percent r <= 100.
Proof.
  intros H. apply get_stats_inv in H. destruct H as (H1 & H2 & ->).
  cbn [CRUDPatent.total_patents CRUDPatent.total_ru_patents
       CRUDPatent.total_with_holders CRUDPatent.total_ru_with_holders
       CRUDPatent.with_holders_percent CRUDPatent.ru_with_holders_percent].
  pose proof (count_nonneg (CRUDPatent.from_patent db filter_id)) as P1.
  pose proof (count_nonneg (filter CRUDPatent.is_ru
                                   (CRUDPatent.from_patent db filter_id))) as P2.
  pose proof (count_filter_le CRUDPatent.is_ru
                              (CRUDPatent.from_patent db filter_id)) as P3.
  pose proof (with_holders_le_total db filter_id CRUDPatent.is_ru) as P4.
  pose proof (with_holders_le_total db filter_id (fun _ => true)) as P5.
  rewrite !filter_true in P5.
  assert (P6 : Sql.count_distinct key_eqb
                 (map Patent.key
                      (filter CRUDPatent.is_ru
                              (CRUDPatent.from_patent_join_ownership db filter_id)))
               <= Sql.count_distinct key_eqb
                    (map Patent.key
                         (CRUDPatent.from_patent_join_ownership db filter_id))).
  { apply (@count_distinct_mono _ key_eqb key_eqb_spec). intros k Hk.
    apply in_map_iff in Hk. destruct Hk as [p [<- Hp]].
    apply in_map. now apply filter_In in Hp. }
  assert (P7 : 0 <= Sql.count_distinct key_eqb
                      (map Patent.key
                           (filter CRUDPatent.is_ru
                                   (CRUDPatent.from_patent_join_ownership db filter_id))))
    by (unfold Sql.count_distinct; lia).
  pose proof (@round_half_even_bounds
                (100 * Sql.count_distinct key_eqb
                         (map Patent.key
                              (CRUDPatent.from_patent_join_ownership db filter_id)))
                (Sql.count (CRUDPatent.from_patent db filter_id)) 100
                ltac:(lia) ltac:(lia) ltac:(lia)) as R1.
  pose proof (@round_half_even_bounds
                (100 * Sql.count_distinct key_eqb
                         (map Patent.key
                              (filter CRUDPatent.is_ru
                                 (CRUDPatent.from_patent_join_ownership db filter_id))))
                (Sql.count (filter CRUDPatent.is_ru
                                   (CRUDPatent.from_patent db filter_id))) 100
                ltac:(lia) ltac:(lia) ltac:(lia)) as R2.
  repeat split; lia.
Qed.

Lemma get_stats_bounds_witness :
  CRUDPatent.get_stats sample_store None = Py.Ok sample_stats
  /\ (0 < CRUDPatent.total_ru_patents sample_stats
           <= CRUDPatent.total_patents sample_stats
      /\ 0 <= CRUDPatent.total_ru_with_holders sample_stats
           <= CRUDPatent.total_with_holders sample_stats
      /\ CRUDPatent.total_with_holders sample_stats
         <= CRUDPatent.total_patents sample_stats
      /\ CRUDPatent.total_ru_with_holders sample_stats
         <= CRUDPatent.total_ru_patents sample_stats
      /\ 0 <= CRUDPatent.with_holders_percent sample_stats <= 100
      /\ 0 <= CRUDPatent.ru_with_holders_percent sample_stats <= 100).
Proof.
  assert (H : CRUDPatent.get_stats sample_store None = Py.Ok sample_stats)
    by reflexivity.
  split; [exact H|]. exact (@get_stats_bounds sample_store None sample_stats H).
Defined.

(** X3.  Whenever [get_stats] returns, with or without a filter, the
    counts of [by_author_count] add up to [total_patents], and so do
    the counts of [by_patent_kind]: every selected row falls into
    exactly one bucket and one kind.  The keys of [by_author_count] are
    distinct labels among "0", "1", "2–5", "5+", and no bucket that is
    present is empty. *)
Theorem get_stats_buckets_partition (db : Store) (filter_id : option Z)
        (r : CRUDPatent.PatentStatsResponse) :
  CRUDPatent.get_stats db filter_id = Py.Ok r ->
  Py.sum (map snd (CRUDPatent.by_author_count r)) = CRUDPatent.total_patents r
  /\ Py.sum (map snd (CRUDPatent.by_patent_kind r)) = CRUDPatent.total_patents r
  /\ NoDup (map fst (CRUDPatent.by_author_count r))
  /\ incl (map fst (CRUDPatent.by_author_count r)) author_count_labels
  /\ forall label c, In (label, c) (CRUDPatent.by_author_count r) -> 1 <= c.
Proof.
  intros H. apply get_stats_inv in H. destruct H as (_ & _ & ->).
  cbn [CRUDPatent.total_patents CRUDPatent.by_author_count CRUDPatent.by_patent_kind].
  repeat split.
  - rewrite (@group_count_sum _ String.eqb String.eqb_eq). apply count_map.
  - rewrite (@group_count_sum _ Z.eqb Z.eqb_eq). apply count_map.
  - rewrite group_count_keys. apply (@NoDup_distinct _ String.eqb String.eqb_eq).
  - rewrite group_count_keys. intros label Hl.
    apply (proj1 (@in_distinct _ String.eqb String.eqb_eq label _)) in Hl.
    apply in_map_iff in Hl. destruct Hl as [p [<- _]].
    unfold author_count_labels.
    destruct (author_count_group_cases p) as [E|[E|[E|E]]]; rewrite E; simpl; tauto.
  - intros label c Hin.
    now apply (@group_count_positive _ String.eqb String.eqb_eq) in Hin.
Qed.

Lemma get_stats_buckets_partition_witness :
  CRUDPatent.get_stats sample_store None = Py.Ok sample_stats
  /\ (Py.sum (map snd (CRUDPatent.by_author_count sample_stats))
      = CRUDPatent.total_patents sample_stats
      /\ Py.sum (map snd (CRUDPatent.by_patent_kind sample_stats))
         = CRUDPatent.total_patents sample_stats
      /\ NoDup (map fst (CRUDPatent.by_author_count sample_stats))
      /\ incl (map fst (CRUDPatent.by_author_count sample_stats)) author_count_labels
      /\ forall label c,
           In (label, c) (CRUDPatent.by_author_count sample_stats) -> 1 <= c).
Proof.
  assert (H : CRUDPatent.get_stats sample_store None = Py.Ok sample_stats)
    by reflexivity.
  split; [exact H|].
  exact (@get_stats_buckets_partition sample_store None sample_stats H).
Defined.

Lemma narrowed_in_join (db : Store) (fid : Z) (p : Patent.t) :
  In p (map (fun r => fst (fst r)) (CRUDPatent.narrowed db fid)) ->
  In p (map fst (Sql.join owns (patent_table db) (ownership_table db))).
Proof.
  intros H. apply in_map_iff in H. destruct H as [[[p' o] f] [E Hin]].
  simpl in E. subst p'. unfold CRUDPatent.narrowed in Hin.
  apply filter_In in Hin. destruct Hin as [Hin _].
  apply in_join in Hin. destruct Hin as [Hin _].
  apply in_map_iff. now exists (p, o).
Qed.

(** X4.  The two counts of distinct patents do narrow under a filter:
    the filtered [total_with_holders] and [total_ru_with_holders] never
    exceed the unfiltered ones. *)
Theorem get_stats_with_holders_narrows (db : Store) (fid : Z)
        (r rf : CRUDPatent.PatentStatsResponse) :
  CRUDPatent.get_stats db None = Py.Ok r ->
  CRUDPatent.get_stats db (Some fid) = Py.Ok rf ->
  CRUDPatent.total_with_holders rf <= CRUDPatent.total_with_holders r
  /\ CRUDPatent.total_ru_with_holders rf <= CRUDPatent.total_ru_with_holders r.
Proof.
  intros H Hf. apply get_stats_inv in H, Hf.
  destruct H as (_ & _ & ->), Hf as (_ & _ & ->).
  cbn [CRUDPatent.total_with_holders CRUDPatent.total_ru_with_holders].
  cbn [CRUDPatent.from_patent_join_ownership].
  split; apply (@count_distinct_mono _ key_eqb key_eqb_spec);
    intros k Hk; apply in_map_iff in Hk; destruct Hk as [p [<- Hp]];
    apply in_map.
  - now apply (narrowed_in_join db fid).
  - apply filter_In in Hp. destruct Hp as [Hp Hru].
    apply filter_In. split; [|exact Hru]. now apply (narrowed_in_join db fid).
Qed.

Lemma get_stats_with_holders_narrows_witness :
  CRUDPatent.get_stats two_owner_store None = Py.Ok two_owner_stats
  /\ CRUDPatent.get_stats two_owner_store (Some 4) = Py.Ok two_owner_stats_filtered
  /\ (CRUDPatent.total_with_holders two_owner_stats_filtered
      <= CRUDPatent.total_with_holders two_owner_stats
      /\ CRUDPatent.total_ru_with_holders two_owner_stats_filtered
         <= CRUDPatent.total_ru_with_holders two_owner_stats).
Proof.
  assert (H : CRUDPatent.get_stats two_owner_store None = Py.Ok two_owner_stats)
    by reflexivity.
  assert (Hf : CRUDPatent.get_stats two_owner_store (Some 4)
               = Py.Ok two_owner_stats_filtered) by reflexivity.
  split; [exact H|]. split; [exact Hf|].
  exact (@get_stats_with_holders_narrows two_owner_store 4
           two_owner_stats two_owner_stats_filtered H Hf).
Defined.

(** ** Groups over joins *)

Lemma map_flat_map {A B C} (f : A -> list B) (g : B -> C) (l : list A) :
  map g (flat_map f l) = flat_map (fun a => map g (f a)) l.
Proof.
  induction l as [|a l IH]; simpl; [reflexivity|]. now rewrite map_app, IH.
Qed.

Lemma filter_flat_map {A B} (f : A -> list B) (sel : B -> bool) (l : list A) :
  filter sel (flat_map f l) = flat_map (fun a => filter sel (f a)) l.
Proof.
  induction l as [|a l IH]; simpl; [reflexivity|]. now rewrite filter_app, IH.
Qed.

Lemma filter_map_swap {A B} (f : A -> B) (sel : B -> bool) (l : list A) :
  filter sel (map f l) = map f (filter (fun a => sel (f a)) l).
Proof.
  induction l as [|a l IH]; simpl; [reflexivity|].
  destruct (sel (f a)); simpl; now rewrite IH.
Qed.

Section GroupsOfBlocks.
Variables A K : Type.
Variable eqb : K -> K -> bool.
Variable key : A -> K.
Hypothesis eqb_spec : forall a b, eqb a b = true <-> a = b.

(** Grouping rows that come in blocks, one block per key: what is left
    is one row for every block that is not empty. *)
Lemma group_by_flat_map (block : A -> list A) (keep : A -> bool) (ps : list A) :
  (forall p, Forall (eq p) (block p)) ->
  (forall p, block p <> [] <-> keep p = true) ->
  NoDup (map key ps) ->
  Sql.group_by eqb key (flat_map block ps) = filter keep ps.
Proof.
  intros Hall Hkeep. induction ps as [|p ps IH]; intros Hnd; [reflexivity|].
  inversion Hnd as [|? ? Hfresh Hnd']; subst. simpl.
  destruct (keep p) eqn:Ek.
  - rewrite (@group_by_block _ _ eqb key (@eqb_same _ eqb eqb_spec) p);
      [|now apply Hkeep | apply Hall].
    rewrite (IH Hnd'). f_equal. apply filter_all. intros x Hx.
    apply filter_In in Hx. destruct Hx as [Hx _].
    destruct (eqb (key p) (key x)) eqn:E; [|reflexivity].
    apply eqb_spec in E. exfalso. apply Hfresh. rewrite E. now apply in_map.
  - assert (E : block p = []).
    { destruct (block p) eqn:Eb; [reflexivity|].
      assert (Hne : block p <> []) by (rewrite Eb; discriminate).
      apply Hkeep in Hne. congruence. }
    rewrite E. simpl. now apply IH.
Qed.

Lemma distinct_map_group_by (l : list A) :
  Sql.distinct eqb (map key l) = map key (Sql.group_by eqb key l).
Proof.
  induction l as [|a l IH]; simpl; [reflexivity|].
  rewrite IH. f_equal.
  exact (@filter_map_swap _ _ key (fun k' => negb (eqb (key a) k')) _).
Qed.
End GroupsOfBlocks.

Lemma all_eq_map_pair {A B} (a : A) (l : list B) (sel : A -> bool) :
  Forall (eq a) (filter sel (map fst (map (pair a) l))).
Proof.
  apply Forall_forall. intros x Hx. apply filter_In in Hx.
  destruct Hx as [Hx _]. apply in_map_iff in Hx. destruct Hx as [[a' b] [<- Hin]].
  apply in_map_iff in Hin. destruct Hin as [b' [E _]]. now inversion E.
Qed.

(** The patents of the rows of Patent JOIN Ownership, restricted by a
    condition on the patent: one per patent that satisfies it and has an
    ownership row. *)
Lemma join_patents_grouped (db : Store) (sel : Patent.t -> bool) :
  patent_pk db ->
  Sql.group_by key_eqb Patent.key
    (filter sel (map fst (Sql.join owns (patent_table db) (ownership_table db))))
  = filter (fun p => sel p && has_owner db p) (patent_table db).
Proof.
  intros Hpk. unfold Sql.join.
  rewrite map_flat_map, filter_flat_map.
  apply (@group_by_flat_map _ _ key_eqb Patent.key key_eqb_spec); trivial.
  - intros p. apply all_eq_map_pair.
  - intros p. unfold has_owner. split.
    + intros Hne.
      destruct (filter sel (map fst (map (pair p)
                                         (filter (owns p) (ownership_table db)))))
        as [|x l] eqn:E; [congruence|].
      assert (Hx : In x (x :: l)) by now left.
      rewrite <- E in Hx. apply filter_In in Hx. destruct Hx as [Hx Hs].
      apply in_map_iff in Hx. destruct Hx as [[p' o] [Ep Hin]].
      apply in_map_iff in Hin. destruct Hin as [o' [Eo Ho]].
      inversion Eo; subst. simpl in Hs. rewrite Hs. simpl.
      apply filter_In in Ho. apply existsb_exists. exists o. exact Ho.
    + intros Hk. apply andb_true_iff in Hk. destruct Hk as [Hs Ho].
      apply existsb_exists in Ho. destruct Ho as [o [Ho Hown]].
      assert (Hin : In p (filter sel (map fst (map (pair p)
                                                  (filter (owns p) (ownership_table db)))))).
      { apply filter_In. split; [|exact Hs].
        apply in_map_iff. exists (p, o). split; [reflexivity|].
        apply in_map, filter_In. tauto. }
      intros E. rewrite E in Hin. destruct Hin.
Qed.

(** X5.  Under the primary key of [patent], the unfiltered
    [total_with_holders] is the number of patents that have at least
    one ownership row, and [total_ru_with_holders] the number of those
    with country code RU: a patent with several owners counts once. *)
Theorem get_stats_with_holders_meaning (db : Store)
        (r : CRUDPatent.PatentStatsResponse) :
  patent_pk db ->
  CRUDPatent.get_stats db None = Py.Ok r ->
  CRUDPatent.total_with_holders r
  = Sql.count (filter (has_owner db) (patent_table db))
  /\ CRUDPatent.total_ru_with_holders r
     = Sql.count (filter (fun p => CRUDPatent.is_ru p && has_owner db p)
                         (patent_table db)).
Proof.
  intros Hpk H. apply get_stats_inv in H. destruct H as (_ & _ & ->).
  cbn [CRUDPatent.total_with_holders CRUDPatent.total_ru_with_holders].
  cbn [CRUDPatent.from_patent_join_ownership].
  unfold Sql.count_distinct. rewrite !distinct_map_group_by, !length_map.
  rewrite (@join_patents_grouped db CRUDPatent.is_ru Hpk).
  rewrite <- (filter_true (map fst (Sql.join owns (patent_table db)
                                             (ownership_table db)))) at 1.
  rewrite (@join_patents_grouped db (fun _ => true) Hpk).
  split; reflexivity.
Qed.

Lemma get_stats_with_holders_meaning_witness :
  patent_pk sample_store
  /\ CRUDPatent.get_stats sample_store None = Py.Ok sample_stats
  /\ (CRUDPatent.total_with_holders sample_stats
      = Sql.count (filter (has_owner sample_store) (patent_table sample_store))
      /\ CRUDPatent.total_ru_with_holders sample_stats
         = Sql.count (filter (fun p => CRUDPatent.is_ru p && has_owner sample_store p)
                             (patent_table sample_store))).
Proof.
  assert (Hpk : patent_pk sample_store).
  { unfold patent_pk. simpl. repeat constructor; simpl; intuition discriminate. }
  assert (H : CRUDPatent.get_stats sample_store None = Py.Ok sample_stats)
    by reflexivity.
  split; [exact Hpk|]. split; [exact H|].
  exact (@get_stats_with_holders_meaning sample_store sample_stats Hpk H).
Defined.

(** ** Author-count buckets *)

Lemma bucket_size_map (rows : list Patent.t) (label : string) :
  Sql.count (filter (String.eqb label) (map CRUDPatent.author_count_group rows))
  = bucket_size rows label.
Proof.
  unfold bucket_size.
  rewrite (filter_map_swap CRUDPatent.author_count_group (String.eqb label)).
  apply count_map.
Qed.

(** C6.  Whenever [get_stats] returns, with or without a filter, its
    [by_author_count] counts every selected patent under exactly one
    of the four labels, and by author count: 0 goes to "0", 1 to "1",
    2 to 5 (inclusive) to "2–5", more than 5 to "5+".  The entry of
    that label is in [by_author_count], with the number of the
    selected patents that go to the label. *)
Theorem author_count_bucketing (db : Store) (filter_id : option Z)
        (r : CRUDPatent.PatentStatsResponse) (p : Patent.t) :
  CRUDPatent.get_stats db filter_id = Py.Ok r ->
  In p (CRUDPatent.from_patent db filter_id) ->
  (exists! label,
      In label author_count_labels
      /\ counted_under r (CRUDPatent.from_patent db filter_id) p label)
  /\ NoDup (map fst (CRUDPatent.by_author_count r))
  /\ forall n, Patent.author_count p = Some n ->
       (n = 0 -> counted_under r (CRUDPatent.from_patent db filter_id) p "0")
       /\ (n = 1 -> counted_under r (CRUDPatent.from_patent db filter_id) p "1")
       /\ (2 <= n <= 5 ->
           counted_under r (CRUDPatent.from_patent db filter_id) p "2–5")
       /\ (5 < n -> counted_under r (CRUDPatent.from_patent db filter_id) p "5+").
Proof.
  intros H Hp. apply get_stats_inv in H. destruct H as (_ & _ & ->).
  assert (Hc : counted_under
                 (CRUDPatent.mkStats
                    (Sql.count (CRUDPatent.from_patent db filter_id))
                    (Sql.count (filter CRUDPatent.is_ru
                                       (CRUDPatent.from_patent db filter_id)))
                    (Sql.count_distinct key_eqb
                       (map Patent.key
                            (CRUDPatent.from_patent_join_ownership db filter_id)))
                    (Sql.count_distinct key_eqb
                       (map Patent.key
                            (filter CRUDPatent.is_ru
                                    (CRUDPatent.from_patent_join_ownership
                                       db filter_id))))
                    (Py.round_half_even
                       (100 * Sql.count_distinct key_eqb
                                (map Patent.key
                                     (CRUDPatent.from_patent_join_ownership
                                        db filter_id)))
                       (Sql.count (CRUDPatent.from_patent db filter_id)))
                    (Py.round_half_even
                       (100 * Sql.count_distinct key_eqb
                                (map Patent.key
                                     (filter CRUDPatent.is_ru
                                             (CRUDPatent.from_patent_join_ownership
                                                db filter_id))))
                       (Sql.count (filter CRUDPatent.is_ru
                                          (CRUDPatent.from_patent db filter_id))))
                    (Sql.group_count String.eqb
                       (map CRUDPatent.author_count_group
                            (CRUDPatent.from_patent db filter_id)))
                    (Sql.group_count Z.eqb
                       (map Patent.kind (CRUDPatent.from_patent db filter_id))))
                 (CRUDPatent.from_patent db filter_id) p
                 (CRUDPatent.author_count_group p)).
  { split; [reflexivity|]. cbn [CRUDPatent.by_author_count].
    rewrite <- bucket_size_map.
    apply (@group_count_in _ String.eqb String.eqb_eq).
    now apply in_map. }
  destruct (author_count_group_ranges p) as [_ Hr].
  split; [|split].
  - exists (CRUDPatent.author_count_group p). split.
    + split; [|exact Hc]. unfold author_count_labels.
      destruct (author_count_group_cases p) as [E|[E|[E|E]]];
        rewrite E; simpl; tauto.
    + intros label [_ [E _]]. exact E.
  - cbn [CRUDPatent.by_author_count]. rewrite group_count_keys.
    apply (@NoDup_distinct _ String.eqb String.eqb_eq).
  - intros n Hn. destruct (Hr n Hn) as (H0 & H1 & H2 & H3).
    split; [|split; [|split]]; intros Hcase.
    + rewrite <- (H0 Hcase). exact Hc.
    + rewrite <- (H1 Hcase). exact Hc.
    + rewrite <- (H2 Hcase). exact Hc.
    + rewrite <- (H3 Hcase). exact Hc.
Qed.

Lemma author_count_bucketing_witness :
  CRUDPatent.get_stats sample_store None = Py.Ok sample_stats
  /\ In sample_P3 (CRUDPatent.from_patent sample_store None)
  /\ (exists! label,
         In label author_count_labels
         /\ counted_under sample_stats (CRUDPatent.from_patent sample_store None)
                          sample_P3 label)
  /\ NoDup (map fst (CRUDPatent.by_author_count sample_stats))
  /\ forall n, Patent.author_count sample_P3 = Some n ->
       (n = 0 -> counted_under sample_stats
                   (CRUDPatent.from_patent sample_store None) sample_P3 "0")
       /\ (n = 1 -> counted_under sample_stats
                      (CRUDPatent.from_patent sample_store None) sample_P3 "1")
       /\ (2 <= n <= 5 ->
           counted_under sample_stats
             (CRUDPatent.from_patent sample_store None) sample_P3 "2–5")
       /\ (5 < n -> counted_under sample_stats
                      (CRUDPatent.from_patent sample_store None) sample_P3 "5+").
Proof.
  assert (H : CRUDPatent.get_stats sample_store None = Py.Ok sample_stats)
    by reflexivity.
  assert (Hp : In sample_P3 (CRUDPatent.from_patent sample_store None))
    by (simpl; tauto).
  split; [exact H|]. split; [exact Hp|].
  exact (@author_count_bucketing sample_store None sample_stats sample_P3 H Hp).
Defined.

(** ** Patent listings, further *)



(** *** Holders *)

Lemma mapM_map {A B C} (f : A -> Py.result B) (g : B -> C) (h : A -> C)
      (l : list A) (l' : list B) :
  (forall x y, f x = Py.Ok y -> g y = h x) ->
  Py.mapM f l = Py.Ok l' -> map g l' = map h l.
Proof.
  intros Hg. revert l'. induction l as [|x l IH]; simpl; intros l' H.
  - now inversion H.
  - destruct (f x) as [y|] eqn:Ex; [|discriminate]. simpl in H.
    destruct (Py.mapM f l) as [ys|]; [|discriminate]. simpl in H.
    inversion H; subst l'. simpl. now rewrite (Hg x y Ex), (IH ys eq_refl).
Qed.

Lemma holder_of_tax_number (db : Store) (o : Ownership.t) (h : CRUDPatent.PatentHolder) :
  CRUDPatent.holder_of db o = Py.Ok h ->
  CRUDPatent.tax_number h = Ownership.person_tax_number o.
Proof.
  unfold CRUDPatent.holder_of, Ownership_person.
  destruct (find _ (person_table db)) as [q|] eqn:E; [|discriminate].
  intros H. inversion H; subst h. simpl.
  apply find_some in E. destruct E as [_ E]. now apply String.eqb_eq in E.
Qed.

Lemma item_of_holders (db : Store) (p : Patent.t) (it : CRUDPatent.PatentItem) :
  CRUDPatent.item_of db p = Py.Ok it ->
  CRUDPatent.patent it = p
  /\ map CRUDPatent.tax_number (CRUDPatent.patent_holders it)
     = map Ownership.person_tax_number (Patent_ownerships db p).
Proof.
  unfold CRUDPatent.item_of.
  destruct (Py.mapM _ _) as [hs|] eqn:E; simpl; [|discriminate].
  intros H. inversion H; subst it. simpl. split; [reflexivity|].
  eapply mapM_map; [|exact E]. apply holder_of_tax_number.
Qed.

Lemma mapM_in {A B} (f : A -> Py.result B) (l : list A) (l' : list B) (y : B) :
  Py.mapM f l = Py.Ok l' -> In y l' -> exists x, In x l /\ f x = Py.Ok y.
Proof.
  revert l'. induction l as [|x l IH]; simpl; intros l' H Hy.
  - inversion H; subst. destruct Hy.
  - destruct (f x) as [y0|] eqn:Ex; [|discriminate]. simpl in H.
    destruct (Py.mapM f l) as [ys|]; [|discriminate]. simpl in H.
    inversion H; subst l'. destruct Hy as [->|Hy].
    + exists x. auto.
    + destruct (IH ys eq_refl Hy) as [x' [Hx' Ex']]. exists x'. auto.
Qed.

Lemma listing_items (db : Store) (rows : list Patent.t) (total : Z)
      (r : CRUDPatent.PatentListResponse) :
  (patents_list <- Py.mapM (CRUDPatent.item_of db) rows ;;
   Py.Ok (CRUDPatent.mkList total patents_list)) = Py.Ok r ->
  forall it, In it (CRUDPatent.items r) ->
    map CRUDPatent.tax_number (CRUDPatent.patent_holders it)
    = map Ownership.person_tax_number
          (filter (owns (CRUDPatent.patent it)) (ownership_table db)).
Proof.
  destruct (Py.mapM _ rows) as [its|] eqn:E; simpl; [|discriminate].
  intros H it Hit. inversion H; subst r. simpl in Hit.
  destruct (@mapM_in _ _ (CRUDPatent.item_of db) rows its it E Hit) as [p [_ Hp]].
  apply item_of_holders in Hp. destruct Hp as [-> Hh]. exact Hh.
Qed.

(** X7.  Every item the endpoint [list_patents] returns, with or without
    a filter, carries one holder for each ownership row of its patent,
    in the order of the ownership table and with the tax number of that
    row: under a filter the holders outside the filter are listed as
    well, and a patent without ownership rows has an empty holder
    list. *)
Theorem list_patents_holders (db : Store) (page pagesize : Z)
        (filter_id : option Z) (kind : option Z) (actual : option bool)
        (r : CRUDPatent.PatentListResponse) :
  CRUDPatent.list_patents db page pagesize filter_id kind actual = Py.Ok r ->
  forall it, In it (CRUDPatent.items r) ->
    map CRUDPatent.tax_number (CRUDPatent.patent_holders it)
    = map Ownership.person_tax_number
          (filter (owns (CRUDPatent.patent it)) (ownership_table db)).
Proof.
  unfold CRUDPatent.list_patents. intros H.
  assert (Hcases :
            CRUDPatent.get_patents_list db page pagesize kind actual = Py.Ok r
            \/ exists fid,
                 CRUDPatent.get_patents_list_with_filter db page pagesize fid = Py.Ok r).
  { destruct filter_id as [fid|]; [|now left].
    destruct (fid =? 0); [now left | right; now exists fid]. }
  clear H. destruct Hcases as [H|[fid H]].
  - unfold CRUDPatent.get_patents_list in H. cbv zeta in H.
    destruct (Sql.offset_limit _ _ _) as [rows|]; [|discriminate].
    cbn [Py.bind] in H. exact (@listing_items db rows _ r H).
  - unfold CRUDPatent.get_patents_list_with_filter in H. cbv zeta in H.
    destruct (Sql.offset_limit _ _ _) as [rows|]; [|discriminate].
    cbn [Py.bind] in H. exact (@listing_items db rows _ r H).
Qed.

Lemma list_patents_holders_witness :
  CRUDPatent.list_patents two_owner_store 1 10 (Some 4) (Some 3) None
  = Py.Ok two_owner_listing
  /\ forall it, In it (CRUDPatent.items two_owner_listing) ->
       map CRUDPatent.tax_number (CRUDPatent.patent_holders it)
       = map Ownership.person_tax_number
             (filter (owns (CRUDPatent.patent it)) (ownership_table two_owner_store)).
Proof.
  assert (H : CRUDPatent.list_patents two_owner_store 1 10 (Some 4) (Some 3) None
              = Py.Ok two_owner_listing) by reflexivity.
  split; [exact H|].
  exact (@list_patents_holders two_owner_store 1 10 (Some 4) (Some 3) None
                               two_owner_listing H).
Defined.

(** *** The filtered listing *)








Lemma count_app {A} (l1 l2 : list A) :
  Sql.count (l1 ++ l2) = Sql.count l1 + Sql.count l2.
Proof. unfold Sql.count. rewrite length_app. lia. Qed.

Lemma join_cons {A B} (on : A -> B -> bool) (a : A) (l : list A) (r : list B) :
  Sql.join on (a :: l) r = map (pair a) (filter (on a) r) ++ Sql.join on l r.
Proof. reflexivity. Qed.

(** Restricting an outer join by a condition on its right side gives as
    many rows as restricting the inner join. *)
Lemma outerjoin_where_right {A B} (on : A -> B -> bool) (sel : B -> bool)
      (l : list A) (r : list B) :
  Sql.count (filter (fun x => match snd x with Some b => sel b | None => false end)
                    (Sql.outerjoin on l r))
  = Sql.count (filter (fun x => sel (snd x)) (Sql.join on l r)).
Proof.
  induction l as [|a l IH]; [reflexivity|].
  rewrite outerjoin_cons, join_cons, !filter_app, !count_app, IH. f_equal.
  unfold Sql.outerjoin. simpl flat_map. rewrite app_nil_r.
  destruct (filter (on a) r) as [|b ms]; [reflexivity|].
  change (Sql.count (filter (fun x => match snd x with Some b0 => sel b0 | None => false end)
                            (map (fun b0 => (a, Some b0)) (b :: ms)))
          = Sql.count (filter (fun x => sel (snd x)) (map (pair a) (b :: ms)))).
  rewrite !filter_map_swap, !count_map. reflexivity.
Qed.

Lemma in_filter_count_pos {A} (f : A -> bool) (l : list A) (x : A) :
  In x l -> f x = true -> 1 <= Sql.count (filter f l).
Proof.
  intros Hx Hf.
  assert (Hin : In x (filter f l)) by (apply filter_In; tauto).
  unfold Sql.count. destruct (filter f l); [destruct Hin | simpl List.length; lia].
Qed.

Lemma pairs_at_least_patents (db : Store) (tax_numbers : list string)
      (ps : list Patent.t) :
  Sql.count (filter (has_owner_in db tax_numbers) ps)
  <= Sql.count
       (filter (fun x => existsb (String.eqb (Ownership.person_tax_number (snd x)))
                                 tax_numbers)
               (Sql.join owns ps (ownership_table db))).
Proof.
  induction ps as [|p ps IH]; [reflexivity|].
  rewrite join_cons, filter_app, count_app. simpl filter at 1.
  destruct (has_owner_in db tax_numbers p) eqn:E.
  - change (Sql.count (p :: filter (has_owner_in db tax_numbers) ps))
      with (Z.of_nat (S (List.length (filter (has_owner_in db tax_numbers) ps)))).
    unfold Sql.count in IH |- *.
    unfold has_owner_in in E. apply existsb_exists in E.
    destruct E as [o [Ho Hsel]]. apply andb_true_iff in Hsel.
    destruct Hsel as [Howns Htax].
    pose proof (@in_filter_count_pos _
                  (fun x : Patent.t * Ownership.t =>
                     existsb (String.eqb (Ownership.person_tax_number (snd x)))
                             tax_numbers)
                  (map (pair p) (filter (owns p) (ownership_table db))) (p, o)) as Hpos.
    unfold Sql.count in Hpos.
    assert (1 <= Z.of_nat (List.length
                             (filter (fun x : Patent.t * Ownership.t =>
                                        existsb (String.eqb (Ownership.person_tax_number (snd x)))
                                                tax_numbers)
                                     (map (pair p) (filter (owns p) (ownership_table db)))))).
    { apply Hpos; [|exact Htax]. apply in_map, filter_In. tauto. }
    lia.
  - pose proof (count_nonneg
                  (filter (fun x : Patent.t * Ownership.t =>
                             existsb (String.eqb (Ownership.person_tax_number (snd x)))
                                     tax_numbers)
                          (map (pair p) (filter (owns p) (ownership_table db))))).
    lia.
Qed.

(** X9.  The [total] of the filtered listing is the number of pairs of a
    patent and one of its ownership rows whose tax number is in the
    filter; it is never below the number of patents that have an owner
    in the filter. *)
Theorem filtered_listing_total_counts_pairs (db : Store) (page pagesize filter_id : Z)
        (r : CRUDPatent.PatentListResponse) :
  CRUDPatent.get_patents_list_with_filter db page pagesize filter_id = Py.Ok r ->
  CRUDPatent.total r
  = Sql.count
      (filter (fun x => existsb (String.eqb (Ownership.person_tax_number (snd x)))
                                (CRUDPatent.filter_tax_number_list db filter_id))
              (Sql.join owns (patent_table db) (ownership_table db)))
  /\ Sql.count (filter (has_owner_in db (CRUDPatent.filter_tax_number_list db filter_id))
                       (patent_table db))
     <= CRUDPatent.total r.
Proof.
  intros H. apply get_patents_list_with_filter_inv in H. destruct H as [Ht _].
  assert (E : CRUDPatent.total r
              = Sql.count
                  (filter (fun x => existsb (String.eqb (Ownership.person_tax_number (snd x)))
                                            (CRUDPatent.filter_tax_number_list db filter_id))
                          (Sql.join owns (patent_table db) (ownership_table db)))).
  { rewrite Ht. unfold filtered_total.
    rewrite <- (outerjoin_where_right owns
                  (fun o => existsb (String.eqb (Ownership.person_tax_number o))
                                    (CRUDPatent.filter_tax_number_list db filter_id))).
    f_equal. apply filter_ext. intros [p [o|]]; reflexivity. }
  split; [exact E|]. rewrite E. apply pairs_at_least_patents.
Qed.

Lemma filtered_listing_total_counts_pairs_witness :
  CRUDPatent.get_patents_list_with_filter two_owner_store 1 10 4
  = Py.Ok two_owner_listing
  /\ (CRUDPatent.total two_owner_listing
      = Sql.count
          (filter (fun x => existsb (String.eqb (Ownership.person_tax_number (snd x)))
                                    (CRUDPatent.filter_tax_number_list two_owner_store 4))
                  (Sql.join owns (patent_table two_owner_store)
                            (ownership_table two_owner_store)))
      /\ Sql.count (filter (has_owner_in two_owner_store
                              (CRUDPatent.filter_tax_number_list two_owner_store 4))
                           (patent_table two_owner_store))
         <= CRUDPatent.total two_owner_listing).
Proof.
  assert (H : CRUDPatent.get_patents_list_with_filter two_owner_store 1 10 4
              = Py.Ok two_owner_listing) by reflexivity.
  split; [exact H|].
  exact (@filtered_listing_total_counts_pairs two_owner_store 1 10 4
                                              two_owner_listing H).
Defined.




(** ** Moscow statistics, further *)

(** What [get_msk_stats] returns when it returns, which it does
    without a filter only. *)
Lemma get_msk_stats_inv (db : Store) (filter_id : option Z) (r : CRUDPerson.MskStats) :
  CRUDPerson.get_msk_stats db filter_id = Py.Ok r ->
  filter_id = None
  /\ Sql.count (CRUDPerson.msk_persons db None) <> 0
  /\ r = CRUDPerson.mkMsk
           (Sql.count (CRUDPerson.msk_persons db filter_id))
           (Sql.group_count Z.eqb
              (map Person.kind (CRUDPerson.msk_persons db filter_id)))
           (Sql.group_count opt_str_eqb
              (map Person.category (CRUDPerson.msk_persons db filter_id)))
           (if Sql.count (filter (fun q => Person.uk q =? 1)
                                 (CRUDPerson.msk_persons db filter_id)) =? 0
            then Py.Int 0
            else Py.PctRound2
                   (Sql.count (filter (fun q => Person.uk q =? 1)
                                      (CRUDPerson.msk_persons db filter_id)))
                   (Sql.count (CRUDPerson.msk_persons db filter_id)))
           (Py.PctRound2
              (Sql.count (filter CRUDPerson.has_support_type
                                 (CRUDPerson.msk_persons db None)))
              (Sql.count (CRUDPerson.msk_persons db None))).
Proof.
  destruct filter_id as [fid|]; [discriminate|].
  unfold CRUDPerson.get_msk_stats, CRUDPerson.total_persons_msk. cbv zeta.
  cbn [Py.bind].
  change (filter CRUDPerson.is_msk (person_table db))
    with (CRUDPerson.msk_persons db None).
  pose proof (count_filter_le (fun q => Person.uk q =? 1)
                              (CRUDPerson.msk_persons db None)) as Hle.
  pose proof (count_nonneg (filter (fun q => Person.uk q =? 1)
                                   (CRUDPerson.msk_persons db None))) as Hc.
  unfold Py.pct_round2.
  destruct (Z.eqb_spec (Sql.count (CRUDPerson.msk_persons db None)) 0)
    as [Ez|Hnz].
  - destruct (negb _ && _); cbn [Py.bind]; discriminate.
  - destruct (Z.eqb_spec
                (Sql.count (filter (fun q => Person.uk q =? 1)
                                   (CRUDPerson.msk_persons db None))) 0)
      as [E0|Hne]; cbn [negb andb Py.bind].
    + intros Hr. inversion Hr. auto.
    + destruct (Z.gtb_spec (Sql.count (CRUDPerson.msk_persons db None)) 0);
        [|lia].
      cbn [Py.bind]. intros Hr. inversion Hr. auto.
Qed.

(** X11.  With a filter identifier [get_msk_stats] raises
    [InvalidRequestError], whatever the store holds: its first
    statement names no table the filter join could start from.
    Without one it returns exactly when the person table holds a
    Moscow person; otherwise the support-type percentage divides by
    zero. *)
Theorem get_msk_stats_returns_iff_msk (db : Store) (filter_id : option Z) :
  match filter_id with
  | Some _ =>
      CRUDPerson.get_msk_stats db filter_id = Py.Raise Py.InvalidRequestError
  | None =>
      if existsb CRUDPerson.is_msk (person_table db)
      then exists r, CRUDPerson.get_msk_stats db filter_id = Py.Ok r
      else CRUDPerson.get_msk_stats db filter_id = Py.Raise Py.ZeroDivisionError
  end.
Proof.
  destruct filter_id as [fid|]; [apply get_msk_stats_filter_raises|].
  destruct (existsb _ _) eqn:E.
  - apply get_msk_stats_returns. intros Hnil.
    apply existsb_filter_nil in Hnil. congruence.
  - apply get_msk_stats_no_msk_person. now apply existsb_filter_nil.
Qed.

(** X13.  Whenever [get_msk_stats] returns, the counts of [by_kind] add
    up to [total_persons] and so do the counts of [by_category]; the
    cluster percentage is the integer 0 exactly when the selection has
    no cluster member, and otherwise the share of the cluster members
    in [total_persons], which they do not exceed. *)
Theorem get_msk_stats_consistent (db : Store) (filter_id : option Z)
        (r : CRUDPerson.MskStats) :
  CRUDPerson.get_msk_stats db filter_id = Py.Ok r ->
  let cluster_count :=
    Sql.count (filter (fun q => Person.uk q =? 1)
                      (CRUDPerson.msk_persons db filter_id)) in
  Py.sum (map snd (CRUDPerson.by_kind r)) = CRUDPerson.total_persons r
  /\ Py.sum (map snd (CRUDPerson.by_category r)) = CRUDPerson.total_persons r
  /\ 0 <= cluster_count <= CRUDPerson.total_persons r
  /\ CRUDPerson.moscow_cluster_percentage r
     = (if cluster_count =? 0 then Py.Int 0
        else Py.PctRound2 cluster_count (CRUDPerson.total_persons r)).
Proof.
  intros H cluster_count. apply get_msk_stats_inv in H. destruct H as [_ [_ ->]].
  cbn [CRUDPerson.by_kind CRUDPerson.by_category CRUDPerson.total_persons
       CRUDPerson.moscow_cluster_percentage].
  repeat split.
  - rewrite (@group_count_sum _ Z.eqb Z.eqb_eq). apply count_map.
  - rewrite (@group_count_sum _ opt_str_eqb opt_str_eqb_spec). apply count_map.
  - apply count_nonneg.
  - apply count_filter_le.
Qed.

Lemma get_msk_stats_consistent_witness :
  CRUDPerson.get_msk_stats msk_store None = Py.Ok msk_stats_all
  /\ (let cluster_count :=
        Sql.count (filter (fun q => Person.uk q =? 1)
                          (CRUDPerson.msk_persons msk_store None)) in
      Py.sum (map snd (CRUDPerson.by_kind msk_stats_all))
      = CRUDPerson.total_persons msk_stats_all
      /\ Py.sum (map snd (CRUDPerson.by_category msk_stats_all))
         = CRUDPerson.total_persons msk_stats_all
      /\ 0 <= cluster_count <= CRUDPerson.total_persons msk_stats_all
      /\ CRUDPerson.moscow_cluster_percentage msk_stats_all
         = (if cluster_count =? 0 then Py.Int 0
            else Py.PctRound2 cluster_count (CRUDPerson.total_persons msk_stats_all))).
Proof.
  assert (H : CRUDPerson.get_msk_stats msk_store None = Py.Ok msk_stats_all)
    by reflexivity.
  split; [exact H|].
  exact (@get_msk_stats_consistent msk_store None msk_stats_all H).
Defined.

(** ** Person totals *)







Example get_all_stats_duplicate_tax_number :
  AllStats.total_persons
    (AllStats.get_all_stats
       (mkStore [] [sample_Q1] []
                [FilterTaxNumber.mk 4 "7701"; FilterTaxNumber.mk 4 "7701"])
       (Some 4)) = 2.
Proof. reflexivity. Qed.

(** ** The three breakdowns of [get_patents_stats] *)

Lemma insert_desc_perm {K} (x : K * Z) (l : list (K * Z)) :
  Permutation (Sql.insert_desc x l) (x :: l).
Proof.
  induction l as [|y l IH]; simpl; [reflexivity|].
  destruct (snd y <=? snd x); [reflexivity|].
  rewrite IH. apply perm_swap.
Qed.

Lemma order_by_count_desc_perm {K} (l : list (K * Z)) :
  Permutation (Sql.order_by_count_desc l) l.
Proof.
  unfold Sql.order_by_count_desc.
  induction l as [|x l IH]; simpl; [constructor|].
  rewrite insert_desc_perm. now constructor.
Qed.

Lemma insert_desc_sorted {K} (x : K * Z) (l : list (K * Z)) :
  sorted_desc (map snd l) -> sorted_desc (map snd (Sql.insert_desc x l)).
Proof.
  induction l as [|y l IH]; intros Hs; simpl.
  - split; constructor.
  - simpl in Hs. destruct Hs as [Hy Hs].
    destruct (Z.leb_spec (snd y) (snd x)) as [Hle|Hgt]; simpl.
    + split; [|split; assumption].
      constructor; [exact Hle|].
      eapply Forall_impl; [|exact Hy]. simpl. intros z Hz. lia.
    + split; [|now apply IH].
      apply Forall_forall. intros z Hz. apply in_map_iff in Hz.
      destruct Hz as [r [<- Hr]].
      apply (Permutation_in r (insert_desc_perm x l)) in Hr.
      destruct Hr as [<-|Hr]; [lia|].
      rewrite Forall_forall in Hy. apply Hy. now apply in_map.
Qed.

Lemma order_by_count_desc_sorted {K} (l : list (K * Z)) :
  sorted_desc (map snd (Sql.order_by_count_desc l)).
Proof.
  unfold Sql.order_by_count_desc.
  induction l as [|x l IH]; simpl; [exact I|]. now apply insert_desc_sorted.
Qed.

Lemma sum_perm (l l' : list Z) : Permutation l l' -> Py.sum l = Py.sum l'.
Proof.
  unfold Py.sum. induction 1; simpl; lia.
Qed.

Lemma sorted_desc_firstn (n : nat) (l : list Z) :
  sorted_desc l -> sorted_desc (firstn n l).
Proof.
  revert l. induction n as [|n IH]; intros [|x l]; simpl; trivial.
  intros [Hx Hs]. split; [now apply Forall_firstn | now apply IH].
Qed.

Lemma sum_at_least_length (l : list Z) :
  Forall (fun z => 1 <= z) l -> Z.of_nat (List.length l) <= Py.sum l.
Proof.
  unfold Py.sum. induction 1 as [|x l Hx _ IH]; simpl List.length; simpl fold_right; lia.
Qed.

(** The rows a breakdown folds: distinct labels, each with the number
    of its rows, the largest count first. *)
Lemma breakdown_rows (labels : list (option string)) :
  let rows := Sql.order_by_count_desc (Sql.group_count opt_str_eqb labels) in
  Py.sum (map snd rows) = Sql.count labels
  /\ Forall (fun r => 1 <= snd r) rows
  /\ sorted_desc (map snd rows)
  /\ List.length rows = List.length (Sql.distinct opt_str_eqb labels).
Proof.
  intros rows.
  pose proof (order_by_count_desc_perm (Sql.group_count opt_str_eqb labels)) as HP.
  fold rows in HP. repeat split.
  - rewrite (sum_perm (Permutation_map snd HP)).
    apply (@group_count_sum _ opt_str_eqb opt_str_eqb_spec).
  - apply Forall_forall. intros [k c] Hr.
    apply (Permutation_in _ HP) in Hr.
    now apply (@group_count_positive _ opt_str_eqb opt_str_eqb_spec) in Hr.
  - apply order_by_count_desc_sorted.
  - rewrite (Permutation_length HP). unfold Sql.group_count. apply length_map.
Qed.

Lemma breakdown_facts (labels : list (option string)) :
  let n := List.length (Sql.distinct opt_str_eqb labels) in
  Py.sum (map CRUDPerson.count (breakdown labels)) = Sql.count labels
  /\ List.length (breakdown labels) = (Nat.min n 5 + (if (5 <? n)%nat then 1 else 0))%nat
  /\ sorted_desc (map CRUDPerson.count (firstn 5 (breakdown labels)))
  /\ Forall (fun it => 1 <= CRUDPerson.count it) (breakdown labels).
Proof.
  intros n. unfold breakdown.
  destruct (breakdown_rows labels) as (Hsum & Hpos & Hsorted & Hlen).
  set (rows := Sql.order_by_count_desc (Sql.group_count opt_str_eqb labels)) in *.
  fold n in Hlen.
  assert (Hlen' : @List.length CRUDPerson.row rows = n) by exact Hlen.
  assert (Htail : (5 < n)%nat -> 1 <= Py.sum (map snd (skipn 5 rows))).
  { intros Hn.
    assert (Hp : Forall (fun z => 1 <= z) (map snd (skipn 5 rows))).
    { apply Forall_forall. intros z Hz. apply in_map_iff in Hz.
      destruct Hz as [r [<- Hr]]. apply in_skipn_in in Hr.
      rewrite Forall_forall in Hpos. now apply Hpos. }
    apply sum_at_least_length in Hp.
    rewrite length_map, length_skipn, Hlen in Hp. lia. }
  assert (Hothers : others_entry rows
                    = if (5 <? n)%nat
                      then [CRUDPerson.mkItem (Some CRUDPerson.others_label)
                                              (Py.sum (map snd (skipn 5 rows)))]
                      else []).
  { unfold others_entry. cbv zeta. rewrite Hlen'.
    destruct (Nat.ltb_spec 5 n) as [Hn|Hn]; [|reflexivity].
    specialize (Htail Hn). cbn [andb].
    match goal with
    | |- context [?s >? 0] =>
        change s with (Py.sum (map snd (skipn 5 rows)));
        destruct (Z.gtb_spec (Py.sum (map snd (skipn 5 rows))) 0) as [_|Hle]
    end; [reflexivity|lia]. }
  rewrite top5_unfold, Hothers. repeat split.
  - rewrite map_app, sum_app, map_count_item_of_row.
    rewrite <- Hsum, (sum_split 5 (map snd rows)), firstn_map, skipn_map.
    f_equal. destruct (Nat.ltb_spec 5 n) as [Hn|Hn].
    + unfold Py.sum. simpl. lia.
    + rewrite (skipn_all2 rows) by lia. reflexivity.
  - rewrite length_app, length_map, length_firstn, ?Hlen, ?Hlen'.
    rewrite Nat.min_comm. destruct (5 <? n)%nat; reflexivity.
  - match goal with
    | |- sorted_desc (map CRUDPerson.count ?x) =>
        assert (E : x = map CRUDPerson.item_of_row (firstn 5 rows))
    end.
    { destruct (Nat.ltb_spec 5 n) as [Hn|Hn].
      - rewrite firstn_app, length_map, length_firstn, ?Hlen, ?Hlen'.
        replace (5 - Nat.min 5 n)%nat with 0%nat by lia.
        rewrite firstn_O, app_nil_r. apply firstn_all2.
        rewrite length_map, length_firstn, ?Hlen, ?Hlen'. lia.
      - rewrite app_nil_r. apply firstn_all2.
        rewrite length_map, length_firstn, ?Hlen, ?Hlen'. lia. }
    rewrite E, map_count_item_of_row, <- firstn_map.
    now apply sorted_desc_firstn.
  - apply Forall_app. split.
    + apply Forall_forall. intros it Hit. apply in_map_iff in Hit.
      destruct Hit as [r [<- Hr]]. apply in_firstn_in in Hr.
      rewrite Forall_forall in Hpos. now apply Hpos.
    + destruct (Nat.ltb_spec 5 n) as [Hn|Hn]; constructor; [|constructor].
      simpl. now apply Htail.
Qed.

(** X16.  Each of the three breakdowns of [get_patents_stats] keeps the
    total: the counts of [okopf_stats] and of [okvad_stats] add up to
    the number of rows of Person JOIN Ownership, those of [mpk_stats]
    to the number of rows of Patent JOIN Ownership with patent kind 1
    or 2. *)
Theorem get_patents_stats_totals (db : Store) :
  Py.sum (map CRUDPerson.count (CRUDPerson.okopf_stats (CRUDPerson.get_patents_stats db)))
  = Sql.count (person_ownership_rows db)
  /\ Py.sum (map CRUDPerson.count
                 (CRUDPerson.okvad_stats (CRUDPerson.get_patents_stats db)))
     = Sql.count (person_ownership_rows db)
  /\ Py.sum (map CRUDPerson.count
                 (CRUDPerson.mpk_stats (CRUDPerson.get_patents_stats db)))
     = Sql.count (mpk_rows db).
Proof.
  split; [|split].
  - change (CRUDPerson.okopf_stats (CRUDPerson.get_patents_stats db))
      with (breakdown (map (fun r => Person.okopf (fst r)) (person_ownership_rows db))).
    destruct (breakdown_facts (map (fun r => Person.okopf (fst r))
                                   (person_ownership_rows db))) as [-> _].
    apply count_map.
  - change (CRUDPerson.okvad_stats (CRUDPerson.get_patents_stats db))
      with (breakdown (map (fun r => Person.okvad (fst r)) (person_ownership_rows db))).
    destruct (breakdown_facts (map (fun r => Person.okvad (fst r))
                                   (person_ownership_rows db))) as [-> _].
    apply count_map.
  - change (CRUDPerson.mpk_stats (CRUDPerson.get_patents_stats db))
      with (breakdown (map (fun r => Patent.subcategory (fst r)) (mpk_rows db))).
    destruct (breakdown_facts (map (fun r => Patent.subcategory (fst r))
                                   (mpk_rows db))) as [-> _].
    apply count_map.
Qed.

(** X17.  In each breakdown of [get_patents_stats] the remainder entry is
    present exactly when there are more than five distinct labels (a
    NULL label counts as one): with [n] labels the breakdown has
    [min n 5 + (1 if n > 5)] entries.  Its first five counts are in
    descending order, and no entry has a count below 1. *)
Theorem get_patents_stats_shape (db : Store) :
  let shape (st : list CRUDPerson.StatsItem) (labels : list (option string)) :=
    let n := List.length (Sql.distinct opt_str_eqb labels) in
    List.length st = (Nat.min n 5 + (if (5 <? n)%nat then 1 else 0))%nat
    /\ sorted_desc (map CRUDPerson.count (firstn 5 st))
    /\ Forall (fun it => 1 <= CRUDPerson.count it) st in
  shape (CRUDPerson.okopf_stats (CRUDPerson.get_patents_stats db))
        (map (fun r => Person.okopf (fst r)) (person_ownership_rows db))
  /\ shape (CRUDPerson.okvad_stats (CRUDPerson.get_patents_stats db))
           (map (fun r => Person.okvad (fst r)) (person_ownership_rows db))
  /\ shape (CRUDPerson.mpk_stats (CRUDPerson.get_patents_stats db))
           (map (fun r => Patent.subcategory (fst r)) (mpk_rows db)).
Proof.
  cbv zeta. split; [|split].
  - change (CRUDPerson.okopf_stats (CRUDPerson.get_patents_stats db))
      with (breakdown (map (fun r => Person.okopf (fst r)) (person_ownership_rows db))).
    apply breakdown_facts.
  - change (CRUDPerson.okvad_stats (CRUDPerson.get_patents_stats db))
      with (breakdown (map (fun r => Person.okvad (fst r)) (person_ownership_rows db))).
    apply breakdown_facts.
  - change (CRUDPerson.mpk_stats (CRUDPerson.get_patents_stats db))
      with (breakdown (map (fun r => Patent.subcategory (fst r)) (mpk_rows db))).
    apply breakdown_facts.
Qed.

(** ** Single records *)

Section SameKey.
Variables A K : Type.
Variable eqb : K -> K -> bool.
Variable key : A -> K.
Hypothesis eqb_spec : forall a b, eqb a b = true <-> a = b.

(** Rows that all have the same key form one group, shown by its first
    row. *)
Lemma group_by_same_key (k : K) (l : list A) :
  (forall x, In x l -> key x = k) ->
  Sql.group_by eqb key l = match hd_error l with Some a => [a] | None => [] end.
Proof.
  destruct l as [|a l]; intros H; [reflexivity|]. simpl. f_equal.
  apply filter_none. intros x Hx. apply in_group_by in Hx.
  rewrite (H a (or_introl eq_refl)), (H x (or_intror Hx)).
  now rewrite (@eqb_same _ eqb eqb_spec).
Qed.
End SameKey.

Lemma hd_error_app_nonempty {A} (l1 l2 : list A) :
  l1 <> [] -> hd_error (l1 ++ l2) = hd_error l1.
Proof. destruct l1; [congruence | reflexivity]. Qed.

Lemma hd_error_all {A} (a : A) (l : list A) :
  l <> [] -> Forall (eq a) l -> hd_error l = Some a.
Proof.
  destruct l as [|x l]; [congruence|]. intros _ H.
  inversion H; subst. reflexivity.
Qed.

(** The first selected row of the listing join shows the first
    selected patent. *)
Lemma hd_rows_of (db : Store) (sel : Patent.t -> bool) (ps : list Patent.t) :
  hd_error (map CRUDPatent.row_patent
                (filter (fun r => sel (CRUDPatent.row_patent r)) (rows_of db ps)))
  = find sel ps.
Proof.
  induction ps as [|p ps IH]; [reflexivity|].
  rewrite rows_of_cons, filter_app, map_app. simpl find.
  destruct (rows_of_one db p) as [Hne Hall]. rewrite Forall_forall in Hall.
  destruct (sel p) eqn:Es.
  - rewrite (filter_all (fun r => sel (CRUDPatent.row_patent r)) (rows_of db [p]))
      by (intros r Hr; now rewrite (Hall r Hr)).
    rewrite hd_error_app_nonempty
      by (destruct (rows_of db [p]); [congruence | discriminate]).
    apply hd_error_all.
    + destruct (rows_of db [p]); [congruence | discriminate].
    + apply Forall_forall. intros x Hx. apply in_map_iff in Hx.
      destruct Hx as [r [<- Hr]]. symmetry. now apply Hall.
  - rewrite (filter_none (fun r => sel (CRUDPatent.row_patent r)) (rows_of db [p]))
      by (intros r Hr; now rewrite (Hall r Hr)).
    exact IH.
Qed.

(** The same for Person LEFT JOIN Ownership. *)
Lemma hd_person_rows (db : Store) (sel : Person.t -> bool) (qs : list Person.t) :
  hd_error (map fst
                (filter (fun r => sel (fst r))
                        (Sql.outerjoin CRUDPerson.person_owns qs (ownership_table db))))
  = find sel qs.
Proof.
  induction qs as [|q qs IH]; [reflexivity|].
  rewrite outerjoin_cons, filter_app, map_app. simpl find.
  destruct (outerjoin_one CRUDPerson.person_owns q (ownership_table db))
    as [Hne Hall].
  rewrite Forall_forall in Hall.
  destruct (sel q) eqn:Es.
  - rewrite (filter_all (fun r : Person.t * option Ownership.t => sel (fst r))
                        (Sql.outerjoin CRUDPerson.person_owns [q] (ownership_table db)))
      by (intros r Hr; now rewrite (Hall r Hr)).
    rewrite hd_error_app_nonempty
      by (destruct (Sql.outerjoin CRUDPerson.person_owns [q] (ownership_table db));
          [congruence | discriminate]).
    apply hd_error_all.
    + destruct (Sql.outerjoin CRUDPerson.person_owns [q] (ownership_table db));
        [congruence | discriminate].
    + apply Forall_forall. intros x Hx. apply in_map_iff in Hx.
      destruct Hx as [r [<- Hr]]. symmetry. now apply Hall.
  - rewrite (filter_none (fun r : Person.t * option Ownership.t => sel (fst r))
                         (Sql.outerjoin CRUDPerson.person_owns [q] (ownership_table db)))
      by (intros r Hr; now rewrite (Hall r Hr)).
    exact IH.
Qed.

(** [get_person] by cases on the first person with the tax number. *)
Lemma get_person_cases (db : Store) (person_tax_number : string) :
  Detail.get_person db person_tax_number
  = match find (fun q => String.eqb (Person.tax_number q) person_tax_number)
               (person_table db) with
    | None => Detail.Raise Detail.TypeError
    | Some q =>
        Detail.Ok
          (Detail.mkPerson q (Person.category q)
             (map (fun o => Detail.mkPatentRef (Ownership.patent_kind o)
                                               (Ownership.patent_reg_number o))
                  (filter (fun o => String.eqb person_tax_number
                                               (Ownership.person_tax_number o))
                          (ownership_table db)))
             (Sql.count
                (filter (fun o => String.eqb person_tax_number
                                             (Ownership.person_tax_number o))
                        (ownership_table db))))
    end.
Proof.
  unfold Detail.get_person, Detail.person_rows. cbv zeta.
  set (joined := filter (fun r : Person.t * option Ownership.t =>
                           String.eqb (Person.tax_number (fst r)) person_tax_number)
                        (Sql.outerjoin CRUDPerson.person_owns (person_table db)
                                       (ownership_table db))).
  assert (Hg : Sql.group_by String.eqb Person.tax_number (map fst joined)
               = match find (fun q => String.eqb (Person.tax_number q) person_tax_number)
                            (person_table db) with
                 | Some q => [q]
                 | None => []
                 end).
  { rewrite (@group_by_same_key _ _ String.eqb Person.tax_number String.eqb_eq
               person_tax_number).
    - unfold joined.
      now rewrite (hd_person_rows db
                     (fun q => String.eqb (Person.tax_number q) person_tax_number)).
    - intros x Hx. apply in_map_iff in Hx. destruct Hx as [r [<- Hr]].
      unfold joined in Hr. apply filter_In in Hr. destruct Hr as [_ Hr].
      now apply String.eqb_eq in Hr. }
  rewrite Hg.
  destruct (find _ (person_table db)) as [q|] eqn:Ef; [|reflexivity].
  apply find_some in Ef. destruct Ef as [_ Eq]. apply String.eqb_eq in Eq.
  cbn [map Detail.unique Sql.distinct filter Detail.one_or_none].
  unfold Detail.Person_ownerships, CRUDPerson.person_owns, Sql.count.
  rewrite length_map, Eq. reflexivity.
Qed.

(** X18.  [get_person] for a tax number that no person has raises
    [TypeError] -- the unpacking of [None] -- and otherwise returns the
    person with that tax number together with the keys of all ownership
    rows of that person, in the order of the ownership table, and their
    number as [patent_count].  It never raises anything else. *)
Theorem get_person_result (db : Store) (person_tax_number : string) :
  match find (fun q => String.eqb (Person.tax_number q) person_tax_number)
             (person_table db) with
  | None => Detail.get_person db person_tax_number = Detail.Raise Detail.TypeError
  | Some q =>
      Person.tax_number q = person_tax_number
      /\ Detail.get_person db person_tax_number
         = Detail.Ok
             (Detail.mkPerson q (Person.category q)
                (map (fun o => Detail.mkPatentRef (Ownership.patent_kind o)
                                                  (Ownership.patent_reg_number o))
                     (filter (fun o => String.eqb person_tax_number
                                                  (Ownership.person_tax_number o))
                             (ownership_table db)))
                (Sql.count
                   (filter (fun o => String.eqb person_tax_number
                                                (Ownership.person_tax_number o))
                           (ownership_table db))))
  end.
Proof.
  rewrite get_person_cases.
  destruct (find _ (person_table db)) as [q|] eqn:Ef; [|reflexivity].
  apply find_some in Ef. destruct Ef as [_ Eq]. apply String.eqb_eq in Eq.
  split; [exact Eq | reflexivity].
Qed.

(** [get_patent] by cases on the first patent with the key. *)
Lemma get_patent_cases (short_name : Person.t -> option string)
      (author_raw : Patent.t -> option string)
      (db : Store) (patent_kind patent_reg_number : Z) :
  match find (fun p => (Patent.kind p =? patent_kind)
                       && (Patent.reg_number p =? patent_reg_number))
             (patent_table db) with
  | None =>
      Detail.get_patent short_name author_raw db patent_kind patent_reg_number
      = Detail.Raise Detail.NoResultFound
  | Some p =>
      exists owner_raw,
        Detail.get_patent short_name author_raw db patent_kind patent_reg_number
        = match Py.mapM (CRUDPatent.holder_of db) (Patent_ownerships db p) with
          | Py.Raise e => Detail.Raise (Detail.Python e)
          | Py.Ok hs => Detail.Ok (Detail.mkPatent p owner_raw hs)
          end
  end.
Proof.
  unfold Detail.get_patent, Detail.patent_rows. cbv zeta.
  change (CRUDPatent.listing_rows db) with (rows_of db (patent_table db)).
  set (sel := fun p => (Patent.kind p =? patent_kind)
                       && (Patent.reg_number p =? patent_reg_number)).
  set (joined := filter (fun r => (Patent.kind (CRUDPatent.row_patent r) =? patent_kind)
                                  && (Patent.reg_number (CRUDPatent.row_patent r)
                                      =? patent_reg_number))
                        (rows_of db (patent_table db))).
  assert (Hg : Sql.group_by key_eqb Patent.key (map CRUDPatent.row_patent joined)
               = match find sel (patent_table db) with
                 | Some p => [p]
                 | None => []
                 end).
  { rewrite (@group_by_same_key _ _ key_eqb Patent.key key_eqb_spec
               (patent_kind, patent_reg_number)).
    - unfold joined. now rewrite (hd_rows_of db sel).
    - intros x Hx. apply in_map_iff in Hx. destruct Hx as [r [<- Hr]].
      unfold joined in Hr. apply filter_In in Hr. destruct Hr as [_ Hr].
      apply andb_true_iff in Hr. rewrite !Z.eqb_eq in Hr.
      unfold Patent.key. now f_equal. }
  rewrite Hg.
  destruct (find sel (patent_table db)) as [p|]; [|reflexivity].
  cbn [map Detail.one]. eexists. reflexivity.
Qed.



Example author_count_of_samples :
  map Detail.author_count_of
      [None; Some ""; Some "Ivanov I.I."; Some "Ivanov I.I., Petrov P.P., Sidorov S.S."]
  = [0; 0; 1; 3].
Proof. reflexivity. Qed.

(** ** Rounding, and the Moscow subset *)

Lemma round_half_even_error (n d : Z) :
  0 < d -> 2 * Z.abs (n - Py.round_half_even n d * d) <= d.
Proof.
  intros Hd. unfold Py.round_half_even.
  pose proof (Z.div_mod n d ltac:(lia)) as E.
  pose proof (Z.mod_pos_bound n d Hd) as Hr.
  destruct (Z.ltb_spec (2 * (n mod d)) d); [nia|].
  destruct (Z.ltb_spec d (2 * (n mod d))); [nia|].
  destruct (Z.even (n / d)); nia.
Qed.

(** X20.  Each percentage [get_stats] returns is an integer nearest to
    the exact ratio: it differs from [100 * with_holders / total] by at
    most one half. *)
Theorem get_stats_percent_nearest (db : Store) (filter_id : option Z)
        (r : CRUDPatent.PatentStatsResponse) :
  CRUDPatent.get_stats db filter_id = Py.Ok r ->
  2 * Z.abs (100 * CRUDPatent.total_with_holders r
             - CRUDPatent.with_holders_percent r * CRUDPatent.total_patents r)
  <= CRUDPatent.total_patents r
  /\ 2 * Z.abs (100 * CRUDPatent.total_ru_with_holders r
                - CRUDPatent.ru_with_holders_percent r * CRUDPatent.total_ru_patents r)
     <= CRUDPatent.total_ru_patents r.
Proof.
  intros H. apply get_stats_inv in H. destruct H as (H1 & H2 & ->).
  cbn [CRUDPatent.total_patents CRUDPatent.total_ru_patents
       CRUDPatent.total_with_holders CRUDPatent.total_ru_with_holders
       CRUDPatent.with_holders_percent CRUDPatent.ru_with_holders_percent].
  pose proof (count_nonneg (CRUDPatent.from_patent db filter_id)) as P1.
  pose proof (count_nonneg (filter CRUDPatent.is_ru
                                   (CRUDPatent.from_patent db filter_id))) as P2.
  split; apply round_half_even_error; lia.
Qed.

Lemma get_stats_percent_nearest_witness :
  CRUDPatent.get_stats sample_store None = Py.Ok sample_stats
  /\ (2 * Z.abs (100 * CRUDPatent.total_with_holders sample_stats
                 - CRUDPatent.with_holders_percent sample_stats
                   * CRUDPatent.total_patents sample_stats)
      <= CRUDPatent.total_patents sample_stats
      /\ 2 * Z.abs (100 * CRUDPatent.total_ru_with_holders sample_stats
                    - CRUDPatent.ru_with_holders_percent sample_stats
                      * CRUDPatent.total_ru_patents sample_stats)
         <= CRUDPatent.total_ru_patents sample_stats).
Proof.
  assert (H : CRUDPatent.get_stats sample_store None = Py.Ok sample_stats)
    by reflexivity.
  split; [exact H|].
  exact (@get_stats_percent_nearest sample_store None sample_stats H).
Defined.

Lemma count_filter_map_sub {A B} (f : B -> bool) (g : A -> B) (h : A -> bool)
      (l : list A) :
  Sql.count (filter f (map g (filter h l))) <= Sql.count (filter f (map g l)).
Proof.
  unfold Sql.count. apply inj_le.
  induction l as [|x l IH]; simpl; [lia|].
  destruct (h x); simpl; destruct (f (g x)); simpl; lia.
Qed.

(** X21.  Without a filter -- the one case in which [get_msk_stats]
    returns -- the persons it counts are the Moscow persons among
    those [get_all_stats] counts: its [total_persons] is their number
    and does not exceed the [total_persons] of [get_all_stats], and
    each kind it lists is a kind [get_all_stats] lists, with a count
    that is not smaller. *)
Theorem get_msk_stats_within_all_stats (db : Store) (r : CRUDPerson.MskStats) :
  CRUDPerson.get_msk_stats db None = Py.Ok r ->
  CRUDPerson.total_persons r
  = Sql.count (filter CRUDPerson.is_msk (person_table db))
  /\ CRUDPerson.total_persons r
     <= AllStats.total_persons (AllStats.get_all_stats db None)
  /\ forall kind c, In (kind, c) (CRUDPerson.by_kind r) ->
       exists c', In (kind, c') (AllStats.by_kind (AllStats.get_all_stats db None))
                  /\ c <= c'.
Proof.
  intros H. apply get_msk_stats_inv in H. destruct H as [_ [_ ->]].
  cbn [CRUDPerson.total_persons CRUDPerson.by_kind].
  unfold AllStats.get_all_stats. cbv zeta.
  cbn [AllStats.total_persons AllStats.by_kind].
  unfold CRUDPerson.msk_persons, AllStats.from_person.
  split; [reflexivity|]. split; [apply count_filter_le|].
  intros kind c Hin.
  pose proof (group_count_lookup _ _ _ _ Hin) as Ec.
  apply (@group_count_positive _ Z.eqb Z.eqb_eq) in Hin. destruct Hin as [Hk _].
  exists (Sql.count (filter (Z.eqb kind) (map Person.kind (person_table db)))).
  split.
  - apply (@group_count_in _ Z.eqb Z.eqb_eq).
    apply in_map_iff in Hk. destruct Hk as [q [Eq Hq]].
    apply filter_In in Hq. rewrite <- Eq. apply in_map. tauto.
  - rewrite Ec. apply count_filter_map_sub.
Qed.

Lemma get_msk_stats_within_all_stats_witness :
  CRUDPerson.get_msk_stats msk_store None = Py.Ok msk_stats_all
  /\ (CRUDPerson.total_persons msk_stats_all
      = Sql.count (filter CRUDPerson.is_msk (person_table msk_store))
      /\ CRUDPerson.total_persons msk_stats_all
         <= AllStats.total_persons (AllStats.get_all_stats msk_store None)
      /\ forall kind c, In (kind, c) (CRUDPerson.by_kind msk_stats_all) ->
           exists c', In (kind, c')
                         (AllStats.by_kind (AllStats.get_all_stats msk_store None))
                      /\ c <= c').
Proof.
  assert (H : CRUDPerson.get_msk_stats msk_store None = Py.Ok msk_stats_all)
    by reflexivity.
  split; [exact H|].
  exact (@get_msk_stats_within_all_stats msk_store msk_stats_all H).
Defined.

(** ** The endpoint, and the two views of an ownership *)

(** X22.  Whenever the endpoint [list_patents] returns, it returns no
    more than [pagesize] items, and its [total] is the same on every
    page: another page with the same remaining arguments returns the
    same [total]. *)
Theorem list_patents_pagination (db : Store) (page pagesize : Z)
        (filter_id : option Z) (kind : option Z) (actual : option bool)
        (r : CRUDPatent.PatentListResponse) :
  CRUDPatent.list_patents db page pagesize filter_id kind actual = Py.Ok r ->
  Z.of_nat (List.length (CRUDPatent.items r)) <= pagesize
  /\ forall page' r',
       CRUDPatent.list_patents db page' pagesize filter_id kind actual = Py.Ok r' ->
       CRUDPatent.total r' = CRUDPatent.total r.
Proof.
  unfold CRUDPatent.list_patents.
  destruct filter_id as [fid|]; [destruct (fid =? 0)|]; intros H.
  - apply get_patents_list_inv in H. destruct H as [Ht Hl].
    split; [exact Hl|]. intros page' r' H'.
    apply get_patents_list_inv in H'. destruct H' as [-> _]. now rewrite Ht.
  - apply get_patents_list_with_filter_inv in H. destruct H as (Ht & Hl & _).
    split; [exact Hl|]. intros page' r' H'.
    apply get_patents_list_with_filter_inv in H'. destruct H' as [-> _].
    now rewrite Ht.
  - apply get_patents_list_inv in H. destruct H as [Ht Hl].
    split; [exact Hl|]. intros page' r' H'.
    apply get_patents_list_inv in H'. destruct H' as [-> _]. now rewrite Ht.
Qed.

Lemma list_patents_pagination_witness :
  CRUDPatent.list_patents two_owner_store 1 10 (Some 4) None None
  = Py.Ok two_owner_listing
  /\ (Z.of_nat (List.length (CRUDPatent.items two_owner_listing)) <= 10
      /\ forall page' r',
           CRUDPatent.list_patents two_owner_store page' 10 (Some 4) None None
           = Py.Ok r' ->
           CRUDPatent.total r' = CRUDPatent.total two_owner_listing).
Proof.
  assert (H : CRUDPatent.list_patents two_owner_store 1 10 (Some 4) None None
              = Py.Ok two_owner_listing) by reflexivity.
  split; [exact H|].
  exact (@list_patents_pagination two_owner_store 1 10 (Some 4) None None
                                  two_owner_listing H).
Defined.

(** What [get_patent] returns when it returns. *)
Lemma get_patent_inv (short_name : Person.t -> option string)
      (author_raw : Patent.t -> option string)
      (db : Store) (patent_kind patent_reg_number : Z) (d : Detail.PatentDetail) :
  Detail.get_patent short_name author_raw db patent_kind patent_reg_number
  = Detail.Ok d ->
  Patent.key (Detail.patent d) = (patent_kind, patent_reg_number)
  /\ map CRUDPatent.tax_number (Detail.patent_holders d)
     = map Ownership.person_tax_number
           (filter (owns (Detail.patent d)) (ownership_table db)).
Proof.
  pose proof (get_patent_cases short_name author_raw db
                               patent_kind patent_reg_number) as C.
  destruct (find _ (patent_table db)) as [p|] eqn:Ef.
  - apply find_some in Ef. destruct Ef as [_ Es].
    apply andb_true_iff in Es. rewrite !Z.eqb_eq in Es.
    destruct C as [agg ->].
    destruct (Py.mapM _ _) as [hs|] eqn:Ehs; [|discriminate].
    intros H. inversion H; subst d. cbn [Detail.patent Detail.patent_holders].
    split; [unfold Patent.key; now f_equal|].
    eapply mapM_map; [|exact Ehs]. apply holder_of_tax_number.
  - rewrite C. discriminate.
Qed.

(** What [get_person] returns when it returns. *)
Lemma get_person_inv (db : Store) (person_tax_number : string)
      (e : Detail.PersonDetail) :
  Detail.get_person db person_tax_number = Detail.Ok e ->
  Detail.patents e
  = map (fun o => Detail.mkPatentRef (Ownership.patent_kind o)
                                     (Ownership.patent_reg_number o))
        (filter (fun o => String.eqb person_tax_number
                                     (Ownership.person_tax_number o))
                (ownership_table db)).
Proof.
  rewrite get_person_cases.
  destruct (find _ (person_table db)) as [q|]; [|discriminate].
  intros H. inversion H; subst e. reflexivity.
Qed.

(** X23.  The detail views agree on who owns what: whenever [get_patent]
    returns for a key and [get_person] returns for a tax number, the
    tax number is among the holders of the patent exactly when the key
    of the patent is among the patents of the person. *)
Theorem ownership_seen_from_both_sides
        (short_name : Person.t -> option string)
        (author_raw : Patent.t -> option string)
        (db : Store) (patent_kind patent_reg_number : Z) (person_tax_number : string)
        (d : Detail.PatentDetail) (e : Detail.PersonDetail) :
  Detail.get_patent short_name author_raw db patent_kind patent_reg_number
  = Detail.Ok d ->
  Detail.get_person db person_tax_number = Detail.Ok e ->
  In person_tax_number (map CRUDPatent.tax_number (Detail.patent_holders d))
  <-> In (Detail.mkPatentRef patent_kind patent_reg_number) (Detail.patents e).
Proof.
  intros Hd He. apply get_patent_inv in Hd. apply get_person_inv in He.
  destruct Hd as [Hkey ->]. rewrite He.
  unfold Patent.key in Hkey. inversion Hkey as [[Hk Hr]].
  rewrite !in_map_iff. split.
  - intros [o [Et Ho]]. apply filter_In in Ho. destruct Ho as [Ho Howns].
    unfold owns in Howns. apply andb_true_iff in Howns.
    rewrite !Z.eqb_eq in Howns. destruct Howns as [E1 E2].
    exists o. split; [now rewrite E1, E2|].
    apply filter_In. split; [exact Ho|]. apply String.eqb_eq. now symmetry.
  - intros [o [Eref Ho]]. apply filter_In in Ho. destruct Ho as [Ho Et].
    apply String.eqb_eq in Et. inversion Eref as [[E1 E2]].
    exists o. split; [now symmetry|].
    apply filter_In. split; [exact Ho|].
    unfold owns. rewrite E1, E2, Hk, Hr, !Z.eqb_refl. reflexivity.
Qed.

Lemma ownership_seen_from_both_sides_witness :
  Detail.get_patent Person.full_name (fun _ => None) two_owner_store 1 101
  = Detail.Ok two_owner_patent
  /\ Detail.get_person two_owner_store "7701" = Detail.Ok two_owner_person
  /\ (In "7701" (map CRUDPatent.tax_number (Detail.patent_holders two_owner_patent))
      <-> In (Detail.mkPatentRef 1 101) (Detail.patents two_owner_person)).
Proof.
  assert (Hd : Detail.get_patent Person.full_name (fun _ => None) two_owner_store 1 101
               = Detail.Ok two_owner_patent) by reflexivity.
  assert (He : Detail.get_person two_owner_store "7701" = Detail.Ok two_owner_person)
    by reflexivity.
  split; [exact Hd|]. split; [exact He|].
  exact (@ownership_seen_from_both_sides Person.full_name (fun _ => None)
           two_owner_store 1 101 "7701" two_owner_patent two_owner_person Hd He).
Defined.
